(** * Flow-log analyzer: a shallow embedding of [flow_log_parser.py]

    The development follows the class [FlowLogAnalyzer]:
    - [Py]: the Python built-ins the class calls ([str.lower], [str.isdigit],
      [str.strip], [str.split], [int], [str] of an integer), on text whose
      code points lie in U+0000..U+00FF, the range a [string] of this
      library holds; the character tables are CPython's for that range;
    - exceptions as an error result, [csv.DictReader] rows as finite maps
      from column name to cell;
    - the protocol table and the lookup table as [gmap]s (only read by key),
      the two counters as insertion-ordered dictionaries (their iteration
      order is visible to [write_results]);
    - the methods of the class, in the order of the source file;
    - [main], over a file system given as an argument, and the line format
      and writing loop of [generate_test_data.py], over their random draws;
    - the properties of the specification, one theorem each, and further
      properties of the code. *)

From Stdlib Require Import ZArith Ascii DecimalString DecimalPos Sorted.
From stdpp Require Import gmap strings list fin_maps sorting.

#[local] Open Scope Z_scope.

(** ** Python built-ins *)

Module Py.

(** Code point of a character. *)
Definition ord (c : ascii) : Z := Z.of_N (N_of_ascii c).
Definition chr (n : Z) : ascii := ascii_of_N (Z.to_N n).

Definition between (lo hi n : Z) : bool := (lo <=? n) && (n <=? hi).

(** [Py_UNICODE_ISSPACE]: the characters [str.strip()] and [str.split()]
    treat as whitespace. Below U+0100 they are TAB..CR, FS..US, SPACE,
    NEL and NBSP. *)
Definition isspace_char (c : ascii) : bool :=
  let n := ord c in
  between 9 13 n || between 28 32 n || (n =? 133) || (n =? 160).

(** [str.isdigit] on one character: the decimal digits and, below U+0100,
    the superscripts two, three and one. *)
Definition isdigit_char (c : ascii) : bool :=
  let n := ord c in
  between 48 57 n || (n =? 178) || (n =? 179) || (n =? 185).

(** The characters [int] reads as decimal digits (category Nd). *)
Definition isdecimal_char (c : ascii) : bool := between 48 57 (ord c).

(** [str.lower] on one character: A..Z and the Latin-1 capitals
    U+00C0..U+00DE (without the multiplication sign U+00D7) move up by 32. *)
Definition lower_char (c : ascii) : ascii :=
  let n := ord c in
  if between 65 90 n || between 192 214 n || between 216 222 n
  then chr (n + 32) else c.

Fixpoint lower (s : string) : string :=
  match s with
  | EmptyString => EmptyString
  | String c r => String (lower_char c) (lower r)
  end.

Fixpoint all_chars (p : ascii → bool) (s : string) : bool :=
  match s with
  | EmptyString => true
  | String c r => p c && all_chars p r
  end.

(** [s.isdigit()]: every character is a digit and there is at least one. *)
Definition isdigit (s : string) : bool :=
  match s with
  | EmptyString => false
  | _ => all_chars isdigit_char s
  end.

Fixpoint lstrip (s : string) : string :=
  match s with
  | String c r => if isspace_char c then lstrip r else s
  | EmptyString => EmptyString
  end.

Fixpoint rstrip (s : string) : string :=
  match s with
  | EmptyString => EmptyString
  | String c r =>
      match rstrip r with
      | EmptyString => if isspace_char c then EmptyString else String c EmptyString
      | r' => String c r'
      end
  end.

(** [s.strip()] *)
Definition strip (s : string) : string := rstrip (lstrip s).

(** [s.split()] without a separator: the maximal runs of non-whitespace
    characters, in order. [cur] is the field being read. *)
Fixpoint split_from (cur : string) (s : string) : list string :=
  match s with
  | EmptyString => match cur with EmptyString => [] | _ => [cur] end
  | String c r =>
      if isspace_char c
      then match cur with
           | EmptyString => split_from EmptyString r
           | _ => cur :: split_from EmptyString r
           end
      else split_from (cur +:+ String c EmptyString) r
  end.

Definition split (s : string) : list string := split_from EmptyString s.

(** [int(s)] in base 10. Surrounding whitespace is dropped, one sign is
    allowed, then decimal digits in which single underscores may separate
    digits. [None] stands for the [ValueError] it raises. The whitespace
    [int] drops is [Py_ISSPACE] on the ASCII range plus NEL and NBSP. The
    function reads a literal of any length: the 4300 digits CPython stops
    at by default are a condition on the input, [int_within_limit], where
    a property depends on it. *)
Definition int_space (c : ascii) : bool :=
  let n := ord c in
  between 9 13 n || (n =? 32) || (n =? 133) || (n =? 160).

Fixpoint int_lstrip (s : string) : string :=
  match s with
  | String c r => if int_space c then int_lstrip r else s
  | EmptyString => EmptyString
  end.

Fixpoint int_rstrip (s : string) : string :=
  match s with
  | EmptyString => EmptyString
  | String c r =>
      match int_rstrip r with
      | EmptyString => if int_space c then EmptyString else String c EmptyString
      | r' => String c r'
      end
  end.

(** [after_digit] records that the previous character was a digit: only
    then may an underscore or the end of the literal follow. *)
Fixpoint int_digits (acc : Z) (after_digit : bool) (s : string) : option Z :=
  match s with
  | EmptyString => if after_digit then Some acc else None
  | String c r =>
      if isdecimal_char c then int_digits (10 * acc + (ord c - 48)) true r
      else if Ascii.eqb c "_" && after_digit then int_digits acc false r
      else None
  end.

Definition int (s : string) : option Z :=
  match int_rstrip (int_lstrip s) with
  | String "+" r => int_digits 0 false r
  | String "-" r => Z.opp <$> int_digits 0 false r
  | r => int_digits 0 false r
  end.

(** [str(n)] for an integer [n], of any size: the 4300 digits CPython stops
    at by default are a condition on the input, [str_within_limit], where a
    property depends on it. *)
Definition str (n : Z) : string := NilZero.string_of_int (Z.to_int n).

End Py.

(** ** Exceptions

    A raised exception is an error result. The text of a message is kept as
    a constructor with the values the source formats into it. *)

Inductive message : Type :=
  | InsufficientFields (found minimum : nat)
  | OnlyVersion2
  | InvalidLiteral (s : string)
  | InvalidPort (dst_port : Z)
  | UnsupportedProtocol (protocol : string)
  | InvalidLineFormat (line : string)
  | InvalidFieldValue (cause : message)
  | LookupFileNotFound
  | InvalidLookupData (cause : message)
  | FlowLogTooLarge (file_size : Z)
  | FlowLogNotFound
  | ProtocolFileError
  | SkippingInvalidLine (cause : message).

Inductive exn : Type :=
  | ValueError (m : message)
  | IndexError
  | KeyError (column : string)
  | FileNotFoundError
  | OSError
  | Exception (m : message).

Inductive result (A : Type) : Type :=
  | Ok (a : A)
  | Raise (e : exn).
Arguments Ok {A} a.
Arguments Raise {A} e.

Definition bind {A B} (r : result A) (k : A → result B) : result B :=
  match r with
  | Ok a => k a
  | Raise e => Raise e
  end.

Notation "'let*' x ':=' r 'in' k" := (bind r (fun x => k))
  (at level 10, x name, r at level 100, k at level 200, only parsing).

(** [l[i]] on a list. *)
Definition getitem {A} (l : list A) (i : nat) : result A :=
  match l !! i with
  | Some a => Ok a
  | None => Raise IndexError
  end.

(** [int(s)] as the source calls it: a [ValueError] when the literal is bad. *)
Definition int (s : string) : result Z :=
  match Py.int s with
  | Some n => Ok n
  | None => Raise (ValueError (InvalidLiteral s))
  end.

(** ** Files

    A CSV file as [csv.DictReader] presents it: absent, present but failing
    when opened or read, or a sequence of rows, each a map from the header's
    column names to the cells. Every cell is a string: a row shorter than
    the header, whose missing cells the reader fills with [None], is not
    represented. *)

Inductive csv_file : Type :=
  | Missing
  | Unreadable
  | Table (rows : list (gmap string string)).

(** [row[column]] *)
Definition cell (row : gmap string string) (column : string) : result string :=
  match row !! column with
  | Some v => Ok v
  | None => Raise (KeyError column)
  end.

(** A text file: its size in bytes and the lines the iteration yields.
    [analyze_logs] below is the method on a file whose iteration comes to
    its end. An iteration that raises after these lines (the file cannot be
    opened, or a byte of it cannot be decoded) raises out of the method,
    whose handlers do not catch it; the file system of [main] says which
    files are read to their end. *)
Record text_file : Type := { file_size : Z; file_lines : list string }.

(** ** Dictionaries with insertion order

    The counters are [defaultdict(int)]: a key that is read for the first
    time is entered with 0 at the end of the dictionary; a key that is
    already there keeps its place. *)

Section Dict.
Context {K : Type} `{EqDecision K}.

Definition dict : Type := list (K * Z).

Fixpoint get (d : dict) (k : K) : option Z :=
  match d with
  | [] => None
  | (k', v) :: d' => if decide (k = k') then Some v else get d' k
  end.

(** [d[k] += 1] *)
Fixpoint incr (k : K) (d : dict) : dict :=
  match d with
  | [] => [(k, 0 + 1)]
  | (k', v) :: d' =>
      if decide (k = k') then (k', v + 1) :: d' else (k', v) :: incr k d'
  end.

Definition keys (d : dict) : list K := d.*1.
Definition values (d : dict) : list Z := d.*2.

(** [sum(d.values())] *)
Definition sum_values (d : dict) : Z := foldr Z.add 0 (values d).

(** A dictionary holds each key once. *)
Definition well_formed (d : dict) : Prop := NoDup (keys d).

(** [d1 == d2]: the same keys with the same values, in any order. *)
Definition dict_eq (d1 d2 : dict) : Prop := ∀ k, get d1 k = get d2 k.
End Dict.
Arguments dict K : clear implicits.

(** ** class FlowLogAnalyzer *)

Definition DEFAULT_PROTOCOL_MAP : gmap string string :=
  <["1" := "icmp"]> (<["17" := "udp"]> (<["6" := "tcp"]> ∅)).

Definition MIN_FIELDS : nat := 14.

Record FlowLogAnalyzer : Type := {
  tag_mappings : gmap (Z * string) string;
  protocol_map : gmap string string
}.

(** [_load_protocol_mappings]: the loop body, the loop, and the method. In
    an assignment [m[k] = v] Python evaluates [v] before [k]. The second
    component of the method's result is what it prints. *)
Definition protocol_row (protocol_map : gmap string string)
    (row : gmap string string) : result (gmap string string) :=
  let* name := cell row "protocol_name" in
  let* number := cell row "protocol_number" in
  let protocol_map := <[number := name]> protocol_map in
  let* name' := cell row "protocol_name" in
  let* name'' := cell row "protocol_name" in
  Ok (<[name'' := name']> protocol_map).

Fixpoint protocol_rows (protocol_map : gmap string string)
    (rows : list (gmap string string)) : result (gmap string string) :=
  match rows with
  | [] => Ok protocol_map
  | row :: rows' =>
      let* protocol_map' := protocol_row protocol_map row in
      protocol_rows protocol_map' rows'
  end.

Definition read_protocol_file (protocol_file : csv_file) : result (gmap string string) :=
  match protocol_file with
  | Missing => Raise FileNotFoundError
  | Unreadable => Raise OSError
  | Table rows => protocol_rows ∅ rows
  end.

Definition _load_protocol_mappings (protocol_file : csv_file)
    : gmap string string * list message :=
  match protocol_file with
  | Missing => (DEFAULT_PROTOCOL_MAP, [])
  | _ =>
      match read_protocol_file protocol_file with
      | Ok protocol_map => (protocol_map, [])
      | Raise _ => (DEFAULT_PROTOCOL_MAP, [ProtocolFileError])
      end
  end.

(** [_normalize_protocol] *)
Definition _normalize_protocol (self : FlowLogAnalyzer) (protocol : string) : string :=
  default (Py.lower protocol) (protocol_map self !! Py.lower protocol).

(** [_load_lookup_file]: it assigns into [self.tag_mappings], so it returns
    the analyzer it leaves behind. *)
Definition lookup_row (self : FlowLogAnalyzer) (row : gmap string string)
    : result FlowLogAnalyzer :=
  let* dstport := cell row "dstport" in
  let* port := int dstport in
  let* token := cell row "protocol" in
  let protocol := _normalize_protocol self token in
  let* tag := cell row "tag" in
  Ok {| tag_mappings := <[(port, protocol) := tag]> (tag_mappings self);
        protocol_map := protocol_map self |}.

Fixpoint lookup_rows (self : FlowLogAnalyzer) (rows : list (gmap string string))
    : result FlowLogAnalyzer :=
  match rows with
  | [] => Ok self
  | row :: rows' => let* self' := lookup_row self row in lookup_rows self' rows'
  end.

Definition _load_lookup_file (self : FlowLogAnalyzer) (lookup_file : csv_file)
    : result FlowLogAnalyzer :=
  let body :=
    match lookup_file with
    | Missing => Raise FileNotFoundError
    | Unreadable => Raise OSError
    | Table rows => lookup_rows self rows
    end in
  match body with
  | Raise FileNotFoundError => Raise (Exception LookupFileNotFound)
  | Raise (ValueError m) => Raise (Exception (InvalidLookupData m))
  | r => r
  end.

(** [__init__], given the two files its paths name. *)
Definition __init__ (protocol_file lookup_file : csv_file)
    : result FlowLogAnalyzer * list message :=
  let '(protocol_map, stdout) := _load_protocol_mappings protocol_file in
  let self := {| tag_mappings := ∅; protocol_map := protocol_map |} in
  (_load_lookup_file self lookup_file, stdout).

(** [_parse_flow_log_line] *)
Definition _parse_flow_log_line (self : FlowLogAnalyzer) (line : string)
    : result (Z * string) :=
  let fields := Py.split (Py.strip line) in
  if (length fields <? MIN_FIELDS)%nat
  then Raise (ValueError (InsufficientFields (length fields) MIN_FIELDS))
  else
    let* version := getitem fields 0 in
    if negb (String.eqb version "2")
    then Raise (ValueError OnlyVersion2)
    else
      let body :=
        let* field6 := getitem fields 6 in
        let* dst_port := int field6 in
        if (dst_port <? 0) || (dst_port >? 65535)
        then Raise (ValueError (InvalidPort dst_port))
        else
          let* protocol := getitem fields 7 in
          if negb (Py.isdigit protocol)
             && negb (bool_decide (is_Some (DEFAULT_PROTOCOL_MAP !! Py.lower protocol)))
          then Raise (ValueError (UnsupportedProtocol protocol))
          else Ok (dst_port, _normalize_protocol self protocol) in
      match body with
      | Raise IndexError => Raise (ValueError (InvalidLineFormat line))
      | Raise (ValueError m) => Raise (ValueError (InvalidFieldValue m))
      | r => r
      end.

(** [analyze_logs]: the counters and the diagnostic stream are the state of
    the loop over the lines. *)
Record counters : Type := {
  tag_counts : dict string;
  combo_counts : dict (Z * string);
  stderr : list message
}.

Definition MAX_FILE_SIZE : Z := 10 * 1024 * 1024.

Definition analyze_line (self : FlowLogAnalyzer) (st : counters) (line : string)
    : result counters :=
  match _parse_flow_log_line self line with
  | Ok (dst_port, protocol) =>
      let combo_counts := incr (dst_port, protocol) (combo_counts st) in
      let tag := default "Untagged" (tag_mappings self !! (dst_port, protocol)) in
      let tag_counts := incr tag (tag_counts st) in
      Ok {| tag_counts := tag_counts; combo_counts := combo_counts;
            stderr := stderr st |}
  | Raise (ValueError m) =>
      Ok {| tag_counts := tag_counts st; combo_counts := combo_counts st;
            stderr := stderr st ++ [SkippingInvalidLine m] |}
  | Raise e => Raise e
  end.

Fixpoint analyze_lines (self : FlowLogAnalyzer) (st : counters)
    (lines : list string) : result counters :=
  match lines with
  | [] => Ok st
  | line :: lines' =>
      let* st' := analyze_line self st line in analyze_lines self st' lines'
  end.

Definition analyze_logs (self : FlowLogAnalyzer) (flow_log_file : option text_file)
    : result (dict string * dict (Z * string) * list message) :=
  match flow_log_file with
  | None => Raise FileNotFoundError
  | Some f =>
      if file_size f >? MAX_FILE_SIZE
      then Raise (Exception (FlowLogTooLarge (file_size f)))
      else
        let st0 := {| tag_counts := []; combo_counts := []; stderr := [] |} in
        match analyze_lines self st0 (file_lines f) with
        | Ok st => Ok (tag_counts st, combo_counts st, stderr st)
        | Raise FileNotFoundError => Raise (Exception FlowLogNotFound)
        | Raise e => Raise e
        end
  end.

(** [sorted] on a list of tuples. Python compares tuples position by
    position; on a linear order every sorting algorithm yields the one
    ascending arrangement, here by merge sort. [lex_le] is the order of
    pairs, [key_le] the order of the keys [(port, protocol)], [item_le] the
    order of the items [(key, count)]. *)
Definition lex_le {A B} (RA : relation A) (RB : relation B) : relation (A * B) :=
  λ x y, strict RA x.1 y.1 ∨ (x.1 = y.1 ∧ RB x.2 y.2).

#[global] Instance lex_le_dec {A B} (RA : relation A) (RB : relation B)
  `{!EqDecision A, !RelDecision RA, !RelDecision RB} : RelDecision (lex_le RA RB).
Proof. intros x y. unfold lex_le, strict. apply _. Defined.

Definition key_le : relation (Z * string) := lex_le Z.le String.le.
Definition tag_item_le : relation (string * Z) := lex_le String.le Z.le.
Definition combo_item_le : relation ((Z * string) * Z) := lex_le key_le Z.le.

#[global] Instance key_le_dec : RelDecision key_le.
Proof. unfold key_le. apply _. Defined.
#[global] Instance tag_item_le_dec : RelDecision tag_item_le.
Proof. unfold tag_item_le. apply _. Defined.
#[global] Instance combo_item_le_dec : RelDecision combo_item_le.
Proof. unfold combo_item_le. apply _. Defined.

Definition sorted {A} (R : relation A) `{!RelDecision R} (l : list A) : list A :=
  merge_sort R l.

(** [write_results]: the text written to the output file. *)
Definition tag_line (item : string * Z) : string :=
  item.1 +:+ "," +:+ Py.str item.2 +:+ "
".

Definition combo_line (item : (Z * string) * Z) : string :=
  Py.str item.1.1 +:+ "," +:+ item.1.2 +:+ "," +:+ Py.str item.2 +:+ "
".

(** A sequence of [f.write] calls appends its arguments to the file. *)
Definition write_all (chunks : list string) : string :=
  foldr String.append "" chunks.

Definition write_results (tag_counts : dict string) (combo_counts : dict (Z * string))
    : string :=
  write_all
    (["Tag Counts:
"; "Tag,Count
"]
     ++ (tag_line <$> sorted tag_item_le tag_counts)
     ++ ["
Port/Protocol Combination Counts:
"; "Port,Protocol,Count
"]
     ++ (combo_line <$> sorted combo_item_le combo_counts)).

(** The repository's own tests, on the model. *)
Definition test_lookup : csv_file :=
  let row (dstport protocol tag : string) : gmap string string :=
    <["dstport" := dstport]> (<["protocol" := protocol]> (<["tag" := tag]> ∅)) in
  Table [row "443" "tcp" "sv_P2"; row "23" "tcp" "sv_P1"; row "25" "tcp" "sv_P1";
         row "110" "tcp" "email"; row "993" "tcp" "email"; row "143" "tcp" "email"].

Definition test_protocols : csv_file :=
  let row (number name description : string) : gmap string string :=
    <["protocol_number" := number]>
      (<["protocol_name" := name]> (<["description" := description]> ∅)) in
  Table [row "6" "tcp" "Transmission Control Protocol";
         row "17" "udp" "User Datagram Protocol";
         row "1" "icmp" "Internet Control Message Protocol"].

Definition test_flow_log : text_file :=
  {| file_size := 330;
     file_lines :=
       ["2 123456789012 eni-0a1b2c3d 10.0.1.201 198.51.100.2 49153 443 6 25 20000 1620140761 1620140821 ACCEPT OK
";
        "2 123456789012 eni-4d3c2b1a 192.168.1.100 203.0.113.101 49154 23 6 15 12000 1620140761 1620140821 REJECT OK
";
        "2 123456789012 eni-5e6f7g8h 192.168.1.101 198.51.100.3 49155 25 6 10 8000 1620140761 1620140821 ACCEPT OK
"] |}.

(** ** Vocabulary of the properties *)

(** An analyzer over the built-in map, and two over loaded tables. *)
Definition builtin_analyzer : FlowLogAnalyzer :=
  {| tag_mappings := ∅; protocol_map := DEFAULT_PROTOCOL_MAP |}.

Definition protocol_table (rows : list (string * string)) : csv_file :=
  Table ((λ r, <["protocol_number" := r.1]> (<["protocol_name" := r.2]> ∅)) <$> rows).

Definition loaded_analyzer (protocol_file : csv_file) : FlowLogAnalyzer :=
  {| tag_mappings := ∅; protocol_map := (_load_protocol_mappings protocol_file).1 |}.

(** A string is lower-case when [lower] leaves it as it is. *)
Definition is_lower (s : string) : Prop := Py.lower s = s.

#[global] Instance is_lower_dec s : Decision (is_lower s).
Proof. unfold is_lower. apply _. Defined.

(** The names a map stores are fixed by normalization. *)
Definition names_resolve_to_themselves (self : FlowLogAnalyzer) : Prop :=
  ∀ k name, Py.lower k = k → protocol_map self !! k = Some name →
            _normalize_protocol self name = name.


(** A protocol table as IANA publishes it, with upper-case keywords. *)
Definition iana_keywords : csv_file := protocol_table [("6", "TCP"); ("17", "UDP")].

(** The fields of a line, and the destination port a field denotes. *)
Definition fields_of (line : string) : list string := Py.split (Py.strip line).

Definition valid_port (field : string) : option Z :=
  match Py.int field with
  | Some p => if (0 <=? p) && (p <=? 65535) then Some p else None
  | None => None
  end.

Definition raises_ValueError {A} (r : result A) : Prop :=
  ∃ m, r = Raise (ValueError m).

(** The rule the parser applies to a line: what [_parse_flow_log_line]
    returns on success, [None] when it rejects. *)
Definition accepted (self : FlowLogAnalyzer) (line : string) : option (Z * string) :=
  let fields := fields_of line in
  if (length fields <? 14)%nat then None
  else if bool_decide (fields !! 0%nat = Some "2") then
    dst_port ← fields !! 6%nat ≫= valid_port;
    protocol ← fields !! 7%nat;
    if Py.isdigit protocol then Some (dst_port, _normalize_protocol self protocol)
    else None
  else None.

(** The rejection rule in the words of the specification: too few fields,
    a version other than 2, a port that is no integer in [0, 65535], or a
    protocol token that is neither all digits nor, in any case, one of the
    names tcp, udp, icmp. *)
Definition recognized_protocol_name (protocol : string) : bool :=
  bool_decide (Py.lower protocol ∈ ["tcp"; "udp"; "icmp"]).

Definition spec_rejects (line : string) : bool :=
  let fields := fields_of line in
  (length fields <? 14)%nat
  || negb (bool_decide (fields !! 0%nat = Some "2"))
  || negb (bool_decide (is_Some (fields !! 6%nat ≫= valid_port)))
  || negb (from_option (λ p, Py.isdigit p || recognized_protocol_name p) false
             (fields !! 7%nat)).

Definition tcp_by_name_line : string :=
  "2 123456789012 eni-0a1b2c3d 10.0.1.201 198.51.100.2 49153 443 tcp 25 20000 1620140761 1620140821 ACCEPT OK".

(** The tag a key is counted under, as [analyze_logs] looks it up. *)
Definition classify (self : FlowLogAnalyzer) (key : Z * string) : string :=
  default "Untagged" (tag_mappings self !! key).

(** A line parses. *)
Definition parses (self : FlowLogAnalyzer) (line : string) : bool :=
  match _parse_flow_log_line self line with
  | Ok _ => true
  | Raise _ => false
  end.

(** The keys of the lines that parse, in the order of the lines. *)
Definition parsed_keys (self : FlowLogAnalyzer) (lines : list string) : list (Z * string) :=
  omap (accepted self) lines.

(** The warnings for the lines that do not parse, in the order of the lines. *)
Definition skipped (self : FlowLogAnalyzer) (lines : list string) : list message :=
  omap (λ line, match _parse_flow_log_line self line with
                | Raise (ValueError m) => Some (SkippingInvalidLine m)
                | _ => None
                end) lines.

(** [d[k] += 1] for each key of a list, in order. *)
Definition incr_all {K} `{EqDecision K} (ks : list K) (d : dict K) : dict K :=
  foldl (λ d k, incr k d) d ks.

Definition occurrences {K} `{EqDecision K} (k : K) (ks : list K) : Z :=
  Z.of_nat (length (filter (k =.) ks)).

Definition all_positive {K} (d : dict K) : Prop := Forall (λ item, 1 ≤ item.2) d.

(** What one row of the protocol file holds, when it has both columns. *)
Definition protocol_entry (row : gmap string string) : option (string * string) :=
  number ← row !! "protocol_number";
  name ← row !! "protocol_name";
  Some (number, name).

(** The two assignments a row makes, in the order it makes them. *)
Definition contributions (entries : list (string * string)) : list (string * string) :=
  entries ≫= λ e, [(e.1, e.2); (e.2, e.2)].

(** What one row of the lookup file holds, when it has the three columns
    and its port is an integer literal. *)
Definition lookup_entry (self : FlowLogAnalyzer) (row : gmap string string)
    : option ((Z * string) * string) :=
  dstport ← row !! "dstport";
  port ← Py.int dstport;
  token ← row !! "protocol";
  tag ← row !! "tag";
  Some ((port, _normalize_protocol self token), tag).

Definition lookup_row_of (dstport protocol tag : string) : gmap string string :=
  <["dstport" := dstport]> (<["protocol" := protocol]> (<["tag" := tag]> ∅)).

(** Inputs the examples below run on. *)
Definition test_analyzer : FlowLogAnalyzer :=
  match (__init__ test_protocols test_lookup).1 with
  | Ok self => self
  | Raise _ => builtin_analyzer
  end.

Definition mixed_flow_log : text_file :=
  {| file_size := 400;
     file_lines :=
       ["2 123456789012 eni-0a1b2c3d 10.0.1.201 198.51.100.2 49153 443 6 25 20000 1620140761 1620140821 ACCEPT OK
";
        "3 123456789012 eni-0a1b2c3d 10.0.1.201 198.51.100.2 49153 443 6 25 20000 1620140761 1620140821 ACCEPT OK
";
        "2 123456789012 eni-4d3c2b1a 192.168.1.100 203.0.113.101 49154 70000 6 15 12000 1620140761 1620140821 REJECT OK
";
        "2 123456789012 eni-5e6f7g8h 192.168.1.101 198.51.100.3 49155 25 17 10 8000 1620140761 1620140821 ACCEPT OK
";
        "
"] |}.

Definition protocol_99_line : string :=
  "2 123456789012 eni-0a1b2c3d 10.0.1.201 198.51.100.2 49153 8080 99 25 20000 1620140761 1620140821 ACCEPT OK
".

(** The orders the report is read in: tags ascending, keys ascending by
    port and, for equal ports, by protocol. *)
Definition tag_before (x y : string * Z) : Prop := strict String.le x.1 y.1.

Definition combo_before (x y : (Z * string) * Z) : Prop :=
  x.1.1 < y.1.1 ∨ (x.1.1 = y.1.1 ∧ strict String.le x.1.2 y.1.2).

(** ** Vocabulary of the further properties *)

(** Strings made of whitespace only, and strings free of whitespace. *)
Definition all_space (s : string) : Prop := Py.all_chars Py.isspace_char s = true.

Definition no_space (s : string) : Prop :=
  Py.all_chars (λ c, negb (Py.isspace_char c)) s = true.

(** A field: a non-empty string free of whitespace. *)
Definition is_field (s : string) : Prop := s ≠ "" ∧ no_space s.

(** What [s.split()] does with the field it is reading when the text ends. *)
Definition close_field (cur : string) : list string :=
  match cur with
  | EmptyString => []
  | _ => [cur]
  end.

(** The number a sequence of decimal digits denotes, read left to right on
    top of [acc]. *)
Fixpoint uint_value (acc : Z) (d : Decimal.uint) : Z :=
  match d with
  | Decimal.Nil => acc
  | Decimal.D0 l => uint_value (10 * acc + 0) l
  | Decimal.D1 l => uint_value (10 * acc + 1) l
  | Decimal.D2 l => uint_value (10 * acc + 2) l
  | Decimal.D3 l => uint_value (10 * acc + 3) l
  | Decimal.D4 l => uint_value (10 * acc + 4) l
  | Decimal.D5 l => uint_value (10 * acc + 5) l
  | Decimal.D6 l => uint_value (10 * acc + 6) l
  | Decimal.D7 l => uint_value (10 * acc + 7) l
  | Decimal.D8 l => uint_value (10 * acc + 8) l
  | Decimal.D9 l => uint_value (10 * acc + 9) l
  end.

(** The digits [str] writes for an integer, without the sign. *)
Definition digits_of (n : Z) : Decimal.uint :=
  match n with
  | Z0 => Decimal.D0 Decimal.Nil
  | Zpos p => Pos.to_uint p
  | Zneg p => Pos.to_uint p
  end.

(** The characters of a decimal numeral: the digits and the minus sign. *)
Definition numeral_char (c : ascii) : bool :=
  Py.isdecimal_char c || Ascii.eqb c "-".

(** The outcome of parsing, as a function of the fields alone: the checks
    in the order the parser makes them. *)
Definition outcome_of_fields (self : FlowLogAnalyzer) (fields : list string)
    : result (Z * string) :=
  let version := default "" (fields !! 0%nat) in
  let field6 := default "" (fields !! 6%nat) in
  let protocol := default "" (fields !! 7%nat) in
  if (length fields <? 14)%nat
  then Raise (ValueError (InsufficientFields (length fields) 14))
  else if negb (String.eqb version "2")
  then Raise (ValueError OnlyVersion2)
  else
    match Py.int field6 with
    | None => Raise (ValueError (InvalidFieldValue (InvalidLiteral field6)))
    | Some dst_port =>
        if (dst_port <? 0) || (65535 <? dst_port)
        then Raise (ValueError (InvalidFieldValue (InvalidPort dst_port)))
        else if Py.isdigit protocol
        then Ok (dst_port, _normalize_protocol self protocol)
        else Raise (ValueError (InvalidFieldValue (UnsupportedProtocol protocol)))
    end.

Definition bare_line : string :=
  "2 123456789012 eni-0a1b2c3d 10.0.1.201 198.51.100.2 49153 443 6 25 20000 1620140761 1620140821 ACCEPT OK".

Definition other_line : string :=
  "2 - - - - - 443 6 - - - - - - extra fields".

(** Equality of outcomes is decidable. *)
#[global] Instance message_eq_dec : EqDecision message.
Proof. solve_decision. Defined.
#[global] Instance exn_eq_dec : EqDecision exn.
Proof. solve_decision. Defined.
#[global] Instance result_eq_dec {A} `{EqDecision A} : EqDecision (result A).
Proof. solve_decision. Defined.

(** The tag a line is counted under, when it parses. *)
Definition tag_of_line (self : FlowLogAnalyzer) (line : string) : option string :=
  match _parse_flow_log_line self line with
  | Ok key => Some (classify self key)
  | Raise _ => None
  end.

(** How many lines parse to a key, and how many are counted under a tag. *)
Definition lines_with_key (self : FlowLogAnalyzer) (key : Z * string)
    (lines : list string) : Z :=
  Z.of_nat (length (filter (λ line, _parse_flow_log_line self line = Ok key) lines)).

Definition lines_with_tag (self : FlowLogAnalyzer) (tag : string)
    (lines : list string) : Z :=
  Z.of_nat (length (filter (λ line, tag_of_line self line = Some tag) lines)).

(** The entry of a counter for a number of lines: none for zero. *)
Definition entry_of (n : Z) : option Z := if decide (n = 0) then None else Some n.

(** [d.get(k, 0)] *)
Definition count_of {K} `{EqDecision K} (d : dict K) (k : K) : Z := default 0 (get d k).

Definition MiB10 : Z := 10485760.

(** CPython converts between integers and decimal text up to 4300 digits by
    default, and raises [ValueError] beyond: [str(n)] succeeds when [n] has
    at most 4300 digits, and [int(s)] does when the literal [s], signs,
    underscores and blanks included, has at most 4300 characters. *)
Definition str_within_limit (n : Z) : Prop := Z.abs n < 10 ^ 4300.

Definition int_within_limit (s : string) : Prop := (String.length s ≤ 4300)%nat.

(** The exception a row of the lookup file makes the loop body raise, if
    any: the cells are read in the order [dstport], [protocol], [tag], and
    the port is converted before the protocol is read. *)
Definition lookup_row_error (row : gmap string string) : option exn :=
  match row !! "dstport" with
  | None => Some (KeyError "dstport")
  | Some dstport =>
      match Py.int dstport with
      | None => Some (ValueError (InvalidLiteral dstport))
      | Some _ =>
          match row !! "protocol" with
          | None => Some (KeyError "protocol")
          | Some _ =>
              match row !! "tag" with
              | None => Some (KeyError "tag")
              | Some _ => None
              end
          end
      end
  end.

(** What the handlers of [_load_lookup_file] make of an exception. *)
Definition lookup_handlers (e : exn) : exn :=
  match e with
  | FileNotFoundError => Exception LookupFileNotFound
  | ValueError m => Exception (InvalidLookupData m)
  | e => e
  end.

(** An analyzer that has loaded nothing yet. *)
Definition fresh_analyzer (protocol_map : gmap string string) : FlowLogAnalyzer :=
  {| tag_mappings := ∅; protocol_map := protocol_map |}.

(** ** [main]

    The files a run can see, by path: the CSV files; the text files, each
    with its size and the lines its iteration yields; whether that
    iteration comes to its end or raises once the lines have been yielded
    (the file cannot be opened, then no line is yielded, or some byte of it
    cannot be decoded); and what becomes of a write to the path. What the
    run leaves behind: its exit code, what it printed, and the file it
    wrote, if any, with the text that reached it. *)

Inductive write_outcome : Type :=
  | OpenFails
  | WriteFails (reached : nat)
  | WriteSucceeds.

Record filesystem : Type := {
  csv_at : string → csv_file;
  text_at : string → option text_file;
  read_fails : string → bool;
  write_at : string → write_outcome
}.

Inductive printed : Type :=
  | Usage
  | Warned (m : message)
  | AnalysisComplete (output_file : string)
  | Error (e : exn)
  | ErrorReadingLog
  | ErrorWritingOutput.

Record run : Type := {
  exit_code : Z;
  run_stdout : list printed;
  run_stderr : list printed;
  written : option (string * string)
}.

(** The first [reached] characters of a text. *)
Definition beginning (reached : nat) (text : string) : string :=
  String.substring 0 reached text.

Definition main (fs : filesystem) (argv : list string) : run :=
  match argv with
  | [_; lookup_file; flow_log_file; output_file] =>
      let '(made, stdout) :=
        __init__ (csv_at fs "protocol_mappings.csv") (csv_at fs lookup_file) in
      match made with
      | Raise e =>
          {| exit_code := 1; run_stdout := Warned <$> stdout;
             run_stderr := [Error e]; written := None |}
      | Ok analyzer =>
          match analyze_logs analyzer (text_at fs flow_log_file) with
          | Raise e =>
              {| exit_code := 1; run_stdout := Warned <$> stdout;
                 run_stderr := [Error e]; written := None |}
          | Ok (tag_counts, combo_counts, warnings) =>
              if read_fails fs flow_log_file
              then {| exit_code := 1; run_stdout := Warned <$> stdout;
                      run_stderr := (Warned <$> warnings) ++ [ErrorReadingLog];
                      written := None |}
              else
                let text := write_results tag_counts combo_counts in
                match write_at fs output_file with
                | WriteSucceeds =>
                    {| exit_code := 0;
                       run_stdout := (Warned <$> stdout) ++ [AnalysisComplete output_file];
                       run_stderr := Warned <$> warnings;
                       written := Some (output_file, text) |}
                | WriteFails reached =>
                    {| exit_code := 1; run_stdout := Warned <$> stdout;
                       run_stderr := (Warned <$> warnings) ++ [ErrorWritingOutput];
                       written := Some (output_file, beginning reached text) |}
                | OpenFails =>
                    {| exit_code := 1; run_stdout := Warned <$> stdout;
                       run_stderr := (Warned <$> warnings) ++ [ErrorWritingOutput];
                       written := None |}
                end
          end
      end
  | _ => {| exit_code := 1; run_stdout := [Usage]; run_stderr := []; written := None |}
  end.

(** A file system for the examples: the test's lookup table and flow log,
    no protocol file, every file read to its end and every path written in
    full; and the same with a disk that takes 22 characters. *)
Definition test_fs : filesystem :=
  {| csv_at := λ path, if String.eqb path "lookup.csv" then test_lookup else Missing;
     text_at := λ path, if String.eqb path "flow.log" then Some mixed_flow_log else None;
     read_fails := λ _, false;
     write_at := λ _, WriteSucceeds |}.

Definition full_disk_fs : filesystem :=
  {| csv_at := csv_at test_fs; text_at := text_at test_fs;
     read_fails := read_fails test_fs; write_at := λ _, WriteFails 22 |}.

(** ** [generate_test_data.py]

    The generator draws at random; its draws are the arguments here, and
    [valid_draws] says what values each draw can take. *)

Module Generator.

Definition common_ports : list Z :=
  [20; 21; 22; 23; 25; 53; 80; 110; 143; 443; 465; 587; 993; 995; 3306; 3389;
   5432; 8080; 8443].

(** [port in self.all_ports] *)
Definition in_all_ports (port : Z) : Prop :=
  port ∈ common_ports ∨ 1024 ≤ port < 65535.

Definition protocols : list string := ["6"; "17"; "1"].

(** [string.ascii_lowercase + string.digits] *)
Definition eni_alphabet : list ascii :=
  String.list_ascii_of_string "abcdefghijklmnopqrstuvwxyz0123456789".

(** [generate_random_ip], on its four draws. *)
Definition generate_random_ip (a b c d : Z) : string :=
  Py.str a +:+ "." +:+ Py.str b +:+ "." +:+ Py.str c +:+ "." +:+ Py.str d.

(** [generate_random_eni], on its eight draws. *)
Definition generate_random_eni (choices : list ascii) : string :=
  "eni-" +:+ String.string_of_list_ascii choices.

Record draws : Type := {
  eni_choices : list ascii;
  src_ip : Z * Z * Z * Z;
  dst_ip : Z * Z * Z * Z;
  src_port : Z;
  dst_port : Z;
  protocol : string;
  packets : Z;
  bytes_count : Z;
  start_time : Z;
  duration : Z;
  action : string
}.

Definition valid_ip (ip : Z * Z * Z * Z) : Prop :=
  let '(a, b, c, d) := ip in
  1 ≤ a ≤ 255 ∧ 0 ≤ b ≤ 255 ∧ 0 ≤ c ≤ 255 ∧ 0 ≤ d ≤ 255.

Definition valid_draws (r : draws) : Prop :=
  length (eni_choices r) = 8%nat
  ∧ Forall (λ c, c ∈ eni_alphabet) (eni_choices r)
  ∧ valid_ip (src_ip r) ∧ valid_ip (dst_ip r)
  ∧ in_all_ports (src_port r)
  ∧ 1024 ≤ dst_port r ≤ 65535
  ∧ protocol r ∈ protocols
  ∧ 1 ≤ packets r ≤ 1000
  ∧ 64 ≤ bytes_count r ≤ 1500
  ∧ 1 ≤ duration r ≤ 300
  ∧ action r ∈ ["ACCEPT"; "REJECT"].

Definition ip_of (ip : Z * Z * Z * Z) : string :=
  let '(a, b, c, d) := ip in generate_random_ip a b c d.

(** The line [generate_flow_log] writes in one round of its loop. *)
Definition flow_log_entry (r : draws) : string :=
  let account_id := "123456789012" in
  let eni := generate_random_eni (eni_choices r) in
  let end_time := start_time r + duration r in
  "2 " +:+ account_id +:+ " " +:+ eni +:+ " " +:+ ip_of (src_ip r) +:+ " "
  +:+ ip_of (dst_ip r) +:+ " " +:+ Py.str (src_port r) +:+ " "
  +:+ Py.str (dst_port r) +:+ " " +:+ protocol r +:+ " " +:+ Py.str (packets r)
  +:+ " " +:+ Py.str (bytes_count r) +:+ " " +:+ Py.str (start_time r) +:+ " "
  +:+ Py.str end_time +:+ " " +:+ action r +:+ " OK
".

(** [len(s.encode())]: the bytes of the UTF-8 encoding. *)
Fixpoint utf8_len (s : string) : Z :=
  match s with
  | EmptyString => 0
  | String c r => (if Py.ord c <? 128 then 1 else 2) + utf8_len r
  end.

(** The loop of [generate_flow_log]: it writes lines until [bytes_written]
    reaches [min_size_bytes], one round per element of [rs]. The result is
    the lines written and the final [bytes_written]; [None] when the rounds
    given do not reach the size. *)
Fixpoint write_entries (min_size_bytes bytes_written : Z) (rs : list draws)
    : option (list string * Z) :=
  if bytes_written <? min_size_bytes then
    match rs with
    | [] => None
    | r :: rs' =>
        let line := flow_log_entry r in
        match write_entries min_size_bytes (bytes_written + utf8_len line) rs' with
        | Some (lines, bytes_written') => Some (line :: lines, bytes_written')
        | None => None
        end
    end
  else Some ([], bytes_written).

Definition generate_flow_log (min_size_mb : Z) (rs : list draws)
    : option (list string * Z) :=
  let min_size_bytes := min_size_mb * 1024 * 1024 in
  write_entries min_size_bytes 0 rs.

End Generator.

Definition sample_draws : Generator.draws :=
  {| Generator.eni_choices := String.list_ascii_of_string "0a1b2c3d";
     Generator.src_ip := (10, 0, 1, 201);
     Generator.dst_ip := (198, 51, 100, 2);
     Generator.src_port := 443;
     Generator.dst_port := 49153;
     Generator.protocol := "17";
     Generator.packets := 25;
     Generator.bytes_count := 1500;
     Generator.start_time := 1620140761;
     Generator.duration := 60;
     Generator.action := "ACCEPT" |}.

(** The bytes of a sequence of lines. *)
Definition utf8_total (lines : list string) : Z :=
  foldr (λ line acc, Generator.utf8_len line + acc) 0 lines.

(** * Properties *)

(** ** The built-ins and the model on examples *)

Example split_runs :
  Py.split (Py.strip "  2  a	b
") = ["2"; "a"; "b"].
Proof. vm_compute. reflexivity. Qed.

Example int_examples :
  Py.int "443" = Some 443 ∧ Py.int "+0_7" = Some 7 ∧ Py.int "-1" = Some (-1)
  ∧ Py.int "4__3" = None ∧ Py.int "" = None ∧ Py.int "12a" = None
  ∧ Py.int " 65536 " = Some 65536.
Proof. vm_compute. repeat split; reflexivity. Qed.

Example str_examples : Py.str 0 = "0" ∧ Py.str 443 = "443" ∧ Py.str (-5) = "-5".
Proof. vm_compute. repeat split; reflexivity. Qed.

Example lower_examples : Py.lower "TcP-6" = "tcp-6" ∧ Py.isdigit "17" = true ∧ Py.isdigit "" = false.
Proof. vm_compute. repeat split; reflexivity. Qed.

Example write_results_example :
  write_results [("sv_P1", 2); ("Untagged", 1)]
                [((49153, "tcp"), 1); ((23, "tcp"), 1); ((25, "tcp"), 1)]
  = "Tag Counts:
Tag,Count
Untagged,1
sv_P1,2

Port/Protocol Combination Counts:
Port,Protocol,Count
23,tcp,1
25,tcp,1
49153,tcp,1
".
Proof. vm_compute. reflexivity. Qed.

Example test_analyze_logs :
  (let* self := (__init__ test_protocols test_lookup).1 in
   analyze_logs self (Some test_flow_log))
  = Ok ([("sv_P2", 1); ("sv_P1", 2)],
        [((443, "tcp"), 1); ((23, "tcp"), 1); ((25, "tcp"), 1)], []).
Proof. vm_compute. reflexivity. Qed.

Example test_parse_flow_log_line :
  (let* self := (__init__ test_protocols test_lookup).1 in
   _parse_flow_log_line self
     "2 123456789012 eni-0a1b2c3d 10.0.1.201 198.51.100.2 443 49153 6 25 20000 1620140761 1620140821 ACCEPT OK")
  = Ok (49153, "tcp").
Proof. vm_compute. reflexivity. Qed.

Example test_minimum_fields_requirement :
  ∀ self,
    _parse_flow_log_line self
      "2 123456789012 eni-0a1b2c3d 10.0.1.201 198.51.100.2 49153 443 6 25 20000 1620140761"
    = Raise (ValueError (InsufficientFields 11 14))
    ∧ _parse_flow_log_line self "   " = Raise (ValueError (InsufficientFields 0 14)).
Proof. intros self. split; vm_compute; reflexivity. Qed.

(** ** Facts about the built-ins *)

Lemma lower_char_idemp c : Py.lower_char (Py.lower_char c) = Py.lower_char c.
Proof. destruct c as [[] [] [] [] [] [] [] []]; reflexivity. Qed.

Lemma lower_idemp s : Py.lower (Py.lower s) = Py.lower s.
Proof. induction s as [|c s IH]; simpl; [done|]. by rewrite lower_char_idemp, IH. Qed.

(** A character whose lower-case form is a digit has no case. *)
Lemma lower_char_digit c :
  Py.isdigit_char (Py.lower_char c) = true → Py.lower_char c = c.
Proof. destruct c as [[] [] [] [] [] [] [] []]; vm_compute; congruence. Qed.

Lemma isdigit_char_lower c :
  Py.isdigit_char c = true → Py.lower_char c = c.
Proof. destruct c as [[] [] [] [] [] [] [] []]; vm_compute; congruence. Qed.

Lemma all_digits_lower s :
  Py.all_chars Py.isdigit_char s = true → Py.lower s = s.
Proof.
  induction s as [|c s IH]; simpl; [done|].
  intros [Hc Hs]%andb_true_iff. by rewrite isdigit_char_lower, IH.
Qed.

Lemma isdigit_lower s : Py.isdigit s = true → Py.lower s = s.
Proof. destruct s; [done|]. apply all_digits_lower. Qed.

Lemma lower_all_digits s :
  Py.all_chars Py.isdigit_char (Py.lower s) = true → Py.lower s = s.
Proof.
  induction s as [|c s IH]; simpl; [done|].
  intros [Hc Hs]%andb_true_iff. by rewrite lower_char_digit, IH.
Qed.

(** The keys of the built-in map are the three protocol numbers. *)
Lemma default_map_keys k :
  is_Some (DEFAULT_PROTOCOL_MAP !! k) ↔ k = "1" ∨ k = "17" ∨ k = "6".
Proof.
  unfold DEFAULT_PROTOCOL_MAP. rewrite !lookup_insert_is_Some, lookup_empty.
  split.
  - intros [?|[_ [?|[_ [?|[_ [? ?]]]]]]]; auto; done.
  - intros [-> | [-> | ->]]; [by left|right; split; [done|by left]|].
    right; split; [done|]. right; split; [done|]. by left.
Qed.

Lemma default_map_values k v :
  DEFAULT_PROTOCOL_MAP !! k = Some v → v = "icmp" ∨ v = "udp" ∨ v = "tcp".
Proof.
  unfold DEFAULT_PROTOCOL_MAP. rewrite !lookup_insert_Some, lookup_empty.
  intros [[_ <-] | [_ [[_ <-] | [_ [[_ <-] | [_ ?]]]]]]; auto; done.
Qed.

(** A token whose lower-case form is a key of the built-in map is all
    digits: the second test of the protocol check never admits a name. *)
Lemma in_default_map_isdigit protocol :
  is_Some (DEFAULT_PROTOCOL_MAP !! Py.lower protocol) → Py.isdigit protocol = true.
Proof.
  intros Hk. apply default_map_keys in Hk.
  assert (Py.all_chars Py.isdigit_char (Py.lower protocol) = true) as Hd
    by (destruct Hk as [-> | [-> | ->]]; reflexivity).
  pose proof (lower_all_digits _ Hd) as Hl. rewrite Hl in Hd, Hk.
  destruct protocol; [|done]. by destruct Hk as [?|[?|?]].
Qed.

(** ** Protocol normalization *)

Lemma normalize_hit self token name :
  protocol_map self !! Py.lower token = Some name →
  _normalize_protocol self token = name.
Proof. intros H. unfold _normalize_protocol. by rewrite H. Qed.

Lemma normalize_miss self token :
  protocol_map self !! Py.lower token = None →
  _normalize_protocol self token = Py.lower token.
Proof. intros H. unfold _normalize_protocol. by rewrite H. Qed.

Lemma normalize_same_lower self t1 t2 :
  Py.lower t1 = Py.lower t2 → _normalize_protocol self t1 = _normalize_protocol self t2.
Proof. intros H. unfold _normalize_protocol. by rewrite H. Qed.

Lemma normalize_lower self token :
  _normalize_protocol self (Py.lower token) = _normalize_protocol self token.
Proof. apply normalize_same_lower, lower_idemp. Qed.

Lemma normalize_is_lower self token :
  map_Forall (λ _ name, is_lower name) (protocol_map self) →
  is_lower (_normalize_protocol self token).
Proof.
  intros Hm. unfold _normalize_protocol.
  destruct (protocol_map self !! Py.lower token) as [name|] eqn:E; simpl.
  - exact (Hm _ _ E).
  - apply lower_idemp.
Qed.

Lemma default_map_lower : map_Forall (λ _ name, is_lower name) DEFAULT_PROTOCOL_MAP.
Proof. intros k v [-> | [-> | ->]]%default_map_values; reflexivity. Qed.

Lemma normalize_idemp_iff self :
  (∀ token, _normalize_protocol self (_normalize_protocol self token)
            = _normalize_protocol self token)
  ↔ names_resolve_to_themselves self.
Proof.
  split.
  - intros Hid k name Hk E.
    rewrite <- Hk in E. rewrite <- (normalize_hit _ _ _ E). apply Hid.
  - intros Hn token.
    destruct (protocol_map self !! Py.lower token) as [name|] eqn:E.
    + rewrite (normalize_hit _ _ _ E). eapply Hn; [|exact E]. apply lower_idemp.
    + rewrite (normalize_miss _ _ E). rewrite normalize_lower.
      apply normalize_miss, E.
Qed.

Lemma default_names_resolve self :
  protocol_map self = DEFAULT_PROTOCOL_MAP → names_resolve_to_themselves self.
Proof.
  intros Hm k name _ E. rewrite Hm in E.
  unfold _normalize_protocol. rewrite Hm.
  apply default_map_values in E as [-> | [-> | ->]]; reflexivity.
Qed.

(** ** Parsing one line *)

Lemma parse_accepted self line :
  match accepted self line with
  | Some r => _parse_flow_log_line self line = Ok r
  | None => raises_ValueError (_parse_flow_log_line self line)
  end.
Proof.
  unfold _parse_flow_log_line, accepted, fields_of, raises_ValueError.
  set (fields := Py.split (Py.strip line)).
  change MIN_FIELDS with 14%nat.
  destruct (Nat.ltb_spec (length fields) 14) as [Hlt|Hge]; [by eauto|].
  destruct (lookup_lt_is_Some_2 fields 0%nat ltac:(lia)) as [version E0].
  destruct (lookup_lt_is_Some_2 fields 6%nat ltac:(lia)) as [field6 E6].
  destruct (lookup_lt_is_Some_2 fields 7%nat ltac:(lia)) as [protocol E7].
  unfold getitem, int, valid_port. rewrite E0, E6, E7. simpl.
  destruct (String.eqb_spec version "2") as [->|Hv]; simpl.
  2: { rewrite bool_decide_eq_false_2 by congruence. eauto. }
  destruct (Py.int field6) as [p|]; simpl; [|by eauto].
  destruct (Z.ltb_spec p 0); simpl.
  { rewrite (proj2 (Z.leb_gt 0 p)) by lia. simpl. eauto. }
  rewrite (proj2 (Z.leb_le 0 p)) by lia. simpl.
  unfold Z.gtb. destruct (Z.compare_spec p 65535); simpl.
  3: { rewrite (proj2 (Z.leb_gt p 65535)) by lia. simpl. eauto. }
  all: rewrite (proj2 (Z.leb_le p 65535)) by lia; simpl.
  all: destruct (Py.isdigit protocol) eqn:Hd; simpl; [done|].
  all: rewrite bool_decide_eq_false_2; simpl; [by eauto|].
  all: intros Hin%in_default_map_isdigit; congruence.
Qed.

(** The parser returns the accepted pair or raises [ValueError], never
    anything else. *)
Lemma parse_Some self line r :
  accepted self line = Some r → _parse_flow_log_line self line = Ok r.
Proof. intros H. pose proof (parse_accepted self line) as P. by rewrite H in P. Qed.

Lemma parse_None self line :
  accepted self line = None → raises_ValueError (_parse_flow_log_line self line).
Proof. intros H. pose proof (parse_accepted self line) as P. by rewrite H in P. Qed.

Lemma parse_Ok_iff self line r :
  _parse_flow_log_line self line = Ok r ↔ accepted self line = Some r.
Proof.
  split; [|apply parse_Some].
  destruct (accepted self line) as [r'|] eqn:E.
  - rewrite (parse_Some _ _ _ E). congruence.
  - destruct (parse_None _ _ E) as [m ->]. done.
Qed.

Lemma parse_raises_iff self line :
  raises_ValueError (_parse_flow_log_line self line) ↔ accepted self line = None.
Proof.
  split; [|apply parse_None].
  destruct (accepted self line) as [r|] eqn:E; [|done].
  rewrite (parse_Some _ _ _ E). by intros [m ?].
Qed.

(** Every line the specification's rule rejects, the parser rejects. *)
Lemma spec_rejects_parse_raises self line :
  spec_rejects line = true → raises_ValueError (_parse_flow_log_line self line).
Proof.
  intros H. apply parse_None. revert H. unfold spec_rejects, accepted.
  destruct (length (fields_of line) <? 14)%nat; [done|]. simpl.
  case_bool_decide; simpl; [|done].
  destruct (fields_of line !! 6%nat ≫= valid_port) as [p|]; simpl; [|done].
  destruct (fields_of line !! 7%nat) as [protocol|]; simpl; [|done].
  by destruct (Py.isdigit protocol).
Qed.

(** The parser and the rule of the specification differ on the named
    protocols, and only there. *)
Lemma parse_raises_spec self line :
  raises_ValueError (_parse_flow_log_line self line)
  ↔ spec_rejects line = true
    ∨ ∃ protocol, fields_of line !! 7%nat = Some protocol
                  ∧ Py.isdigit protocol = false
                  ∧ recognized_protocol_name protocol = true.
Proof.
  rewrite parse_raises_iff. unfold accepted, spec_rejects.
  destruct (Nat.ltb_spec (length (fields_of line)) 14) as [Hlt|Hge]; simpl.
  { split; [by left|done]. }
  destruct (lookup_lt_is_Some_2 (fields_of line) 7%nat ltac:(lia)) as [protocol E7].
  rewrite E7. simpl.
  case_bool_decide as Hv; simpl; [|split; [by left|done]].
  destruct (fields_of line !! 6%nat ≫= valid_port) as [p|]; simpl;
    [|split; [by left|done]].
  destruct (Py.isdigit protocol) eqn:Hd; simpl.
  - split; [done|]. intros [?|(protocol' & [= <-] & ? & _)]; congruence.
  - split; [intros _|done].
    destruct (recognized_protocol_name protocol) eqn:Hr; [right; eauto|by left].
Qed.

(** ** Counters *)

Section DictFacts.
Context {K : Type} `{EqDecision K}.
Implicit Types (d : dict K) (k : K) (ks : list K).

Lemma get_incr k k' d :
  get (incr k d) k'
  = if decide (k' = k) then Some (default 0 (get d k) + 1) else get d k'.
Proof.
  induction d as [|[k0 v0] d IH]; simpl.
  - by repeat case_decide.
  - destruct (decide (k = k0)) as [->|Hne]; simpl.
    + by repeat case_decide.
    + rewrite IH. repeat case_decide; simplify_eq; done.
Qed.

Lemma get_None d k : get d k = None ↔ k ∉ keys d.
Proof.
  unfold keys. induction d as [|[k0 v0] d IH]; simpl.
  - split; [|done]. intros _. apply not_elem_of_nil.
  - rewrite not_elem_of_cons. case_decide as Hk.
    + split; [done|]. by intros [? _].
    + rewrite IH. split; [done|]. by intros [_ ?].
Qed.

Lemma get_Some_elem_of d k v : get d k = Some v → (k, v) ∈ d.
Proof.
  induction d as [|[k0 v0] d IH]; simpl; [done|].
  case_decide; intros; simplify_eq; [left|right; auto].
Qed.

Lemma elem_of_get d k v : well_formed d → (k, v) ∈ d → get d k = Some v.
Proof.
  unfold well_formed, keys. induction d as [|[k0 v0] d IH]; simpl.
  - by intros _ ?%elem_of_nil.
  - intros [Hk0 Hd]%NoDup_cons [?|Hin]%elem_of_cons; simplify_eq.
    + by rewrite decide_True.
    + rewrite decide_False; [auto|]. intros ->. apply Hk0.
      apply list_elem_of_fmap. by exists (k0, v).
Qed.

Lemma elem_of_keys_incr k k' d : k' ∈ keys (incr k d) ↔ k' = k ∨ k' ∈ keys d.
Proof.
  unfold keys. induction d as [|[k0 v0] d IH]; simpl.
  - rewrite list_elem_of_singleton. split; [by left|]. intros [?|?%elem_of_nil]; done.
  - case_decide as Hk; simpl; rewrite !elem_of_cons.
    + subst. split; [by right|]. intros [->|?]; [by left|done].
    + rewrite IH. split; [intros [?|[?|?]]|intros [?|[?|?]]]; auto.
Qed.

Lemma incr_well_formed k d : well_formed d → well_formed (incr k d).
Proof.
  unfold well_formed, keys. induction d as [|[k0 v0] d IH]; simpl.
  - intros _. apply NoDup_singleton.
  - intros [Hk0 Hd]%NoDup_cons. case_decide; simpl.
    + by apply NoDup_cons.
    + apply NoDup_cons. split; [|auto].
      intros [?|?]%elem_of_keys_incr; [by simplify_eq|by apply Hk0].
Qed.

Lemma sum_values_incr k d : sum_values (incr k d) = sum_values d + 1.
Proof.
  unfold sum_values, values. induction d as [|[k0 v0] d IH]; [done|].
  cbn [incr]. case_decide; rewrite !fmap_cons; cbn [foldr snd]; [lia|].
  rewrite IH. lia.
Qed.

Lemma incr_positive k d : all_positive d → all_positive (incr k d).
Proof.
  unfold all_positive. induction d as [|[k0 v0] d IH]; simpl.
  - intros _. by apply Forall_singleton.
  - intros [Hv Hd]%Forall_cons. case_decide; apply Forall_cons; simpl in *.
    + split; [lia|done].
    + auto.
Qed.

(** On dictionaries, equality is having the same items. *)
Lemma dict_eq_Permutation d1 d2 :
  well_formed d1 → well_formed d2 → dict_eq d1 d2 → d1 ≡ₚ d2.
Proof.
  intros H1 H2 Heq. apply NoDup_Permutation.
  - by eapply NoDup_fmap_1.
  - by eapply NoDup_fmap_1.
  - intros [k v]. split; intros Hin.
    + apply get_Some_elem_of. rewrite <- Heq. by apply elem_of_get.
    + apply get_Some_elem_of. rewrite Heq. by apply elem_of_get.
Qed.

Lemma Permutation_dict_eq d1 d2 : well_formed d1 → d1 ≡ₚ d2 → dict_eq d1 d2.
Proof.
  intros H1 Hp k.
  assert (well_formed d2) as H2 by (unfold well_formed, keys; by rewrite <- Hp).
  destruct (get d1 k) as [v|] eqn:E1.
  - symmetry. apply elem_of_get; [done|]. rewrite <- Hp. by apply get_Some_elem_of.
  - symmetry. apply get_None. unfold keys. rewrite <- Hp. by apply get_None.
Qed.

(** The loop over a list of keys. *)
Lemma incr_all_well_formed ks d : well_formed d → well_formed (incr_all ks d).
Proof.
  revert d. induction ks as [|k ks IH]; intros d Hd; simpl; [done|].
  apply IH, incr_well_formed, Hd.
Qed.

Lemma sum_values_incr_all ks d : sum_values (incr_all ks d) = sum_values d + Z.of_nat (length ks).
Proof.
  unfold incr_all. revert d. induction ks as [|k ks IH]; intros d; simpl; [lia|].
  rewrite IH, sum_values_incr. lia.
Qed.

Lemma incr_all_positive ks d : all_positive d → all_positive (incr_all ks d).
Proof.
  revert d. induction ks as [|k ks IH]; intros d Hd; simpl; [done|].
  apply IH, incr_positive, Hd.
Qed.

Lemma occurrences_cons k k0 ks :
  occurrences k (k0 :: ks) = (if decide (k = k0) then 1 else 0) + occurrences k ks.
Proof.
  unfold occurrences. rewrite filter_cons. case_decide; simpl length; lia.
Qed.

Lemma occurrences_not_in k ks : k ∉ ks → occurrences k ks = 0.
Proof.
  induction ks as [|k0 ks IH]; [done|].
  intros [? ?]%not_elem_of_cons. rewrite occurrences_cons, IH by done.
  by rewrite decide_False.
Qed.

Lemma get_incr_all ks d k :
  get (incr_all ks d) k
  = if decide (k ∈ ks) then Some (default 0 (get d k) + occurrences k ks)
    else get d k.
Proof.
  unfold incr_all. revert d. induction ks as [|k0 ks IH]; intros d; cbn [foldl].
  - rewrite decide_False; [done|]. apply not_elem_of_nil.
  - rewrite IH, get_incr, occurrences_cons.
    destruct (decide (k = k0)) as [->|Hne].
    + rewrite (decide_True (P := k0 ∈ k0 :: ks)) by left. simpl.
      case_decide as Hin; f_equal; [lia|].
      rewrite occurrences_not_in by done. lia.
    + case_decide as Hin.
      * rewrite (decide_True (P := k ∈ k0 :: ks)) by (by right). f_equal; lia.
      * rewrite decide_False; [done|]. by intros [?|?]%elem_of_cons.
Qed.

Lemma occurrences_Permutation k ks1 ks2 :
  ks1 ≡ₚ ks2 → occurrences k ks1 = occurrences k ks2.
Proof. intros Hp. unfold occurrences. by rewrite Hp. Qed.

(** The counts do not depend on the order of the keys. *)
Lemma incr_all_Permutation ks1 ks2 d :
  ks1 ≡ₚ ks2 → dict_eq (incr_all ks1 d) (incr_all ks2 d).
Proof.
  intros Hp k. rewrite !get_incr_all, (occurrences_Permutation _ _ _ Hp).
  destruct (decide (k ∈ ks1)) as [Hin|Hin].
  - rewrite decide_True; [done|]. by rewrite <- Hp.
  - rewrite decide_False; [done|]. by rewrite <- Hp.
Qed.
End DictFacts.

(** ** The loop of [analyze_logs] *)

Lemma parses_accepted self line : parses self line = bool_decide (is_Some (accepted self line)).
Proof.
  unfold parses. pose proof (parse_accepted self line) as P.
  destruct (accepted self line) as [r|].
  - rewrite P. by rewrite bool_decide_eq_true_2.
  - destruct P as [m ->]. rewrite bool_decide_eq_false_2; [done|]. by intros [? ?].
Qed.

Lemma analyze_line_spec self st line :
  analyze_line self st line
  = Ok match accepted self line with
       | Some key =>
           {| tag_counts := incr (classify self key) (tag_counts st);
              combo_counts := incr key (combo_counts st);
              stderr := stderr st |}
       | None =>
           {| tag_counts := tag_counts st;
              combo_counts := combo_counts st;
              stderr := stderr st ++ skipped self [line] |}
       end.
Proof.
  unfold analyze_line, skipped. pose proof (parse_accepted self line) as P.
  destruct (accepted self line) as [[dst_port protocol]|].
  - by rewrite P.
  - destruct P as [m Hm]. rewrite Hm. simpl. rewrite Hm. done.
Qed.

Lemma skipped_cons self line lines :
  skipped self (line :: lines) = skipped self [line] ++ skipped self lines.
Proof. unfold skipped. by rewrite (omap_app _ [line] lines). Qed.

Lemma skipped_accepted self line key :
  accepted self line = Some key → skipped self [line] = [].
Proof. intros E. unfold skipped. simpl. by rewrite (parse_Some _ _ _ E). Qed.

Lemma analyze_lines_spec self st lines :
  analyze_lines self st lines
  = Ok {| tag_counts := incr_all (classify self <$> parsed_keys self lines) (tag_counts st);
          combo_counts := incr_all (parsed_keys self lines) (combo_counts st);
          stderr := stderr st ++ skipped self lines |}.
Proof.
  revert st. induction lines as [|line lines IH]; intros st.
  - simpl. rewrite app_nil_r. by destruct st.
  - cbn [analyze_lines]. rewrite analyze_line_spec. cbn [bind]. rewrite IH.
    rewrite (skipped_cons self line lines). unfold parsed_keys. cbn [omap list_omap].
    destruct (accepted self line) as [key|] eqn:E; cbn [tag_counts combo_counts stderr].
    + by rewrite (skipped_accepted _ _ _ E).
    + by rewrite <- app_assoc.
Qed.

Lemma length_parsed_keys self lines :
  length (parsed_keys self lines) = length (filter (λ line, parses self line) lines).
Proof.
  unfold parsed_keys. induction lines as [|line lines IH]; [done|].
  rewrite filter_cons. cbn [omap list_omap].
  destruct (accepted self line) as [key|] eqn:E.
  - rewrite decide_True.
    + cbn [length]. by rewrite IH.
    + rewrite parses_accepted, E. apply bool_decide_pack. eauto.
  - rewrite decide_False; [done|].
    rewrite parses_accepted, E. intros [? ?]%bool_decide_unpack. done.
Qed.

Lemma analyze_logs_spec self f :
  file_size f ≤ MAX_FILE_SIZE →
  analyze_logs self (Some f)
  = Ok (incr_all (classify self <$> parsed_keys self (file_lines f)) [],
        incr_all (parsed_keys self (file_lines f)) [],
        skipped self (file_lines f)).
Proof.
  intros Hsize. unfold analyze_logs.
  destruct (Z.gtb_spec (file_size f) MAX_FILE_SIZE); [lia|].
  by rewrite analyze_lines_spec.
Qed.

(** ** Sorting the report *)

Section LexOrder.
Context {A B : Type} (RA : relation A) (RB : relation B).
Context `{!PartialOrder RA, !PartialOrder RB, !Total RA, !Total RB}.

#[global] Instance lex_le_po : PartialOrder (lex_le RA RB).
Proof.
  split; [split|].
  - intros x. right. done.
  - intros x y z [Hxy|[Exy Hxy]] [Hyz|[Eyz Hyz]].
    + left. by etrans.
    + left. by rewrite <- Eyz.
    + left. by rewrite Exy.
    + right. split; [congruence|by etrans].
  - intros [a b] [a' b'] [Hxy|[Exy Hxy]] [Hyx|[Eyx Hyx]]; simpl in *.
    + destruct (irreflexivity (strict RA) a). by etrans.
    + subst. by destruct (irreflexivity (strict RA) a).
    + subst. by destruct (irreflexivity (strict RA) a').
    + subst. f_equal. by apply (anti_symm RB).
Qed.

#[global] Instance lex_le_total `{!EqDecision A} : Total (lex_le RA RB).
Proof.
  intros [a b] [a' b']. unfold lex_le, strict. simpl.
  destruct (decide (a = a')) as [->|Hne].
  - destruct (total RB b b'); [left|right]; right; done.
  - destruct (total RA a a') as [H|H]; [left|right]; left; split; try done.
    + intros H'. apply Hne. by apply (anti_symm RA).
    + intros H'. apply Hne. by apply (anti_symm RA).
Qed.
End LexOrder.

#[global] Instance key_le_po : PartialOrder key_le.
Proof. unfold key_le. apply _. Qed.
#[global] Instance key_le_total : Total key_le.
Proof. unfold key_le. apply _. Qed.
#[global] Instance tag_item_le_po : PartialOrder tag_item_le.
Proof. unfold tag_item_le. apply _. Qed.
#[global] Instance tag_item_le_total : Total tag_item_le.
Proof. unfold tag_item_le. apply _. Qed.
#[global] Instance combo_item_le_po : PartialOrder combo_item_le.
Proof. unfold combo_item_le. apply _. Qed.
#[global] Instance combo_item_le_total : Total combo_item_le.
Proof. unfold combo_item_le. apply _. Qed.

Section Sorted.
Context {A : Type} (R : relation A) `{!RelDecision R, !PartialOrder R, !Total R}.

Lemma sorted_Permutation (l : list A) : sorted R l ≡ₚ l.
Proof. apply merge_sort_Permutation. Qed.

Lemma sorted_Sorted (l : list A) : StronglySorted R (sorted R l).
Proof. apply StronglySorted_merge_sort; apply _. Qed.

(** [sorted] returns the one ascending arrangement of its argument. *)
Lemma sorted_unique (l1 l2 : list A) : l1 ≡ₚ l2 → sorted R l1 = sorted R l2.
Proof.
  intros Hp. apply (Sorted_unique R).
  - apply Sorted_merge_sort; apply _.
  - apply Sorted_merge_sort; apply _.
  - by rewrite !sorted_Permutation.
Qed.
End Sorted.

(** Sorted items of a dictionary ascend strictly by key: no key occurs twice,
    so the counts never decide the order. *)
Lemma sorted_items_by_key {K} (RK : relation K) `{!RelDecision RK, !EqDecision K,
    !PartialOrder RK, !Total RK} (d : dict K) :
  well_formed d →
  StronglySorted (λ x y, strict RK x.1 y.1) (sorted (lex_le RK Z.le) d).
Proof.
  intros Hwf.
  assert (NoDup (sorted (lex_le RK Z.le) d).*1) as Hnd.
  { unfold well_formed, keys in Hwf. by rewrite sorted_Permutation. }
  pose proof (sorted_Sorted (lex_le RK Z.le) d) as Hs.
  induction Hs as [|x l Hs IH Hx]; [constructor|].
  rewrite fmap_cons in Hnd. apply NoDup_cons in Hnd as [Hx' Hnd].
  constructor; [auto|].
  apply Forall_forall. intros y Hy.
  rewrite Forall_forall in Hx. destruct (Hx y Hy) as [?|[E _]]; [done|].
  destruct Hx'. rewrite E. apply list_elem_of_fmap. by exists y.
Qed.

Lemma write_results_Permutation tags1 combos1 tags2 combos2 :
  tags1 ≡ₚ tags2 → combos1 ≡ₚ combos2 →
  write_results tags1 combos1 = write_results tags2 combos2.
Proof.
  intros Ht Hc. unfold write_results.
  by rewrite (sorted_unique tag_item_le _ _ Ht), (sorted_unique combo_item_le _ _ Hc).
Qed.

Lemma write_results_dict_eq tags1 combos1 tags2 combos2 :
  well_formed tags1 → well_formed tags2 →
  well_formed combos1 → well_formed combos2 →
  dict_eq tags1 tags2 → dict_eq combos1 combos2 →
  write_results tags1 combos1 = write_results tags2 combos2.
Proof.
  intros. apply write_results_Permutation; by apply dict_eq_Permutation.
Qed.

(** ** Loading the protocol table *)

Lemma protocol_row_Some m row e :
  protocol_entry row = Some e →
  protocol_row m row = Ok (<[e.2 := e.2]> (<[e.1 := e.2]> m)).
Proof.
  unfold protocol_entry, protocol_row, cell.
  destruct (row !! "protocol_name") as [name|]; simpl;
    [|by destruct (row !! "protocol_number")].
  destruct (row !! "protocol_number") as [number|]; simpl; [|done].
  by intros [= <-].
Qed.

Lemma protocol_row_None m row :
  protocol_entry row = None → ∃ e, protocol_row m row = Raise e.
Proof.
  unfold protocol_entry, protocol_row, cell.
  destruct (row !! "protocol_name") as [name|]; simpl; [|by eauto].
  destruct (row !! "protocol_number") as [number|]; simpl; [done|by eauto].
Qed.

Lemma protocol_rows_Some m rows entries :
  mapM protocol_entry rows = Some entries →
  protocol_rows m rows
  = Ok (foldl (λ m e, <[e.2 := e.2]> (<[e.1 := e.2]> m)) m entries).
Proof.
  rewrite mapM_Some. intros H. revert m.
  induction H as [|row e rows entries He _ IH]; intros m; simpl; [done|].
  rewrite (protocol_row_Some _ _ _ He). simpl. apply IH.
Qed.

Lemma protocol_rows_None m rows :
  mapM protocol_entry rows = None → ∃ e, protocol_rows m rows = Raise e.
Proof.
  revert m. induction rows as [|row rows IH]; intros m; [done|].
  simpl. destruct (protocol_entry row) as [e|] eqn:He; simpl.
  - rewrite (protocol_row_Some _ _ _ He). simpl.
    destruct (mapM protocol_entry rows); [done|]. intros _. by apply IH.
  - intros _. destruct (protocol_row_None m _ He) as [e ->]. eauto.
Qed.

Lemma fold_contributions entries :
  foldl (λ m e, <[e.2 := e.2]> (<[e.1 := e.2]> m)) (∅ : gmap string string) entries
  = list_to_map (reverse (contributions entries)).
Proof.
  unfold contributions.
  induction entries as [|e entries IH] using rev_ind; [done|].
  rewrite foldl_snoc, IH, bind_app, reverse_app. done.
Qed.

Lemma load_protocol_mappings_Some rows entries :
  mapM protocol_entry rows = Some entries →
  _load_protocol_mappings (Table rows)
  = (list_to_map (reverse (contributions entries)), []).
Proof.
  intros H. unfold _load_protocol_mappings, read_protocol_file.
  by rewrite (protocol_rows_Some _ _ _ H), fold_contributions.
Qed.

Lemma load_protocol_mappings_None rows :
  mapM protocol_entry rows = None →
  _load_protocol_mappings (Table rows) = (DEFAULT_PROTOCOL_MAP, [ProtocolFileError]).
Proof.
  intros H. unfold _load_protocol_mappings, read_protocol_file.
  by destruct (protocol_rows_None ∅ _ H) as [e ->].
Qed.

(** ** Loading the lookup table *)

Lemma normalize_ext self self' token :
  protocol_map self' = protocol_map self →
  _normalize_protocol self' token = _normalize_protocol self token.
Proof. intros H. unfold _normalize_protocol. by rewrite H. Qed.

Lemma lookup_entry_ext self self' row :
  protocol_map self' = protocol_map self →
  lookup_entry self' row = lookup_entry self row.
Proof.
  intros H. unfold lookup_entry.
  destruct (row !! "dstport") as [dstport|]; simpl; [|done].
  destruct (Py.int dstport) as [port|]; simpl; [|done].
  destruct (row !! "protocol") as [token|]; simpl; [|done].
  by rewrite (normalize_ext _ _ _ H).
Qed.

Lemma lookup_row_Some self row e :
  lookup_entry self row = Some e →
  lookup_row self row
  = Ok {| tag_mappings := <[e.1 := e.2]> (tag_mappings self);
          protocol_map := protocol_map self |}.
Proof.
  unfold lookup_entry, lookup_row, cell, int.
  destruct (row !! "dstport") as [dstport|]; simpl; [|done].
  destruct (Py.int dstport) as [port|]; simpl; [|done].
  destruct (row !! "protocol") as [token|]; simpl; [|done].
  destruct (row !! "tag") as [tag|]; simpl; [|done].
  by intros [= <-].
Qed.

Lemma lookup_rows_Some self rows entries :
  mapM (lookup_entry self) rows = Some entries →
  lookup_rows self rows
  = Ok {| tag_mappings := foldl (λ m e, <[e.1 := e.2]> m) (tag_mappings self) entries;
          protocol_map := protocol_map self |}.
Proof.
  revert self entries. induction rows as [|row rows IH]; intros self entries.
  - intros [= <-]. by destruct self.
  - simpl. destruct (lookup_entry self row) as [e|] eqn:He; simpl; [|done].
    rewrite (lookup_row_Some _ _ _ He). simpl.
    set (self' := {| tag_mappings := _ |}).
    assert (mapM (lookup_entry self) rows = mapM (lookup_entry self') rows) as ->.
    { clear. induction rows as [|r rows IH]; [done|]. simpl.
      by rewrite IH, (lookup_entry_ext self self' r). }
    destruct (mapM (lookup_entry self') rows) as [entries'|] eqn:Hm; simpl; [|done].
    intros [= <-]. by rewrite (IH _ _ Hm).
Qed.

(** The last assignment to a key is the one that stays. *)
Lemma fold_insert_last {K V} `{Countable K} (m : gmap K V) pre post k v :
  k ∉ post.*1 →
  foldl (λ m e, <[e.1 := e.2]> m) m (pre ++ (k, v) :: post) !! k = Some v.
Proof.
  intros Hpost. rewrite foldl_app. simpl.
  generalize (foldl (λ m e, <[e.1 := e.2]> m) m pre). intros m'.
  assert (<[k := v]> m' !! k = Some v) as Hm by apply lookup_insert_eq.
  revert Hm. generalize (<[k := v]> m'). clear m'.
  induction post as [|[k' v'] post IH]; intros m' Hm; simpl; [done|].
  rewrite fmap_cons in Hpost. apply not_elem_of_cons in Hpost as [Hne Hpost].
  apply IH; [done|]. by rewrite lookup_insert_ne.
Qed.

(** * The claims of the specification *)

(** C1. The specification says [_parse_flow_log_line] rejects a line exactly
    when it has fewer than 14 fields, or field 0 is not "2", or field 6 is
    no integer in [0, 65535], or field 7 is neither all digits nor one of
    the names tcp, udp, icmp in any case. On a line that is well formed and
    names its protocol "tcp", that rule accepts, while the parser raises
    [ValueError] for an unsupported protocol: its membership test looks the
    name up among the keys of the built-in map, which are the numbers. *)
Theorem parse_rejects_protocol_name :
  spec_rejects tcp_by_name_line = false
  ∧ ∀ self, _parse_flow_log_line self tcp_by_name_line
            = Raise (ValueError (InvalidFieldValue (UnsupportedProtocol "tcp"))).
Proof. split; [|intros self]; vm_compute; reflexivity. Qed.

(** C2. For a flow log within the size limit, [analyze_logs] returns; the
    counts of [tag_counts] and the counts of [combo_counts] both add up to
    the number of lines that parse; and a line that does not parse leaves
    both counters as they were. *)
Theorem counters_sum_to_parsed_lines (self : FlowLogAnalyzer) (f : text_file) :
  file_size f ≤ MAX_FILE_SIZE →
  ∃ tags combos warnings,
    analyze_logs self (Some f) = Ok (tags, combos, warnings)
    ∧ sum_values tags
      = Z.of_nat (length (filter (λ line, parses self line) (file_lines f)))
    ∧ sum_values combos = sum_values tags
    ∧ ∀ st line, parses self line = false →
        ∃ st', analyze_line self st line = Ok st'
               ∧ tag_counts st' = tag_counts st
               ∧ combo_counts st' = combo_counts st.
Proof.
  intros Hsize. eexists _, _, _. split; [by apply analyze_logs_spec|].
  rewrite !sum_values_incr_all, length_fmap, length_parsed_keys.
  repeat split; [done..|].
  intros st line Hp. eexists. split; [apply analyze_line_spec|].
  rewrite parses_accepted in Hp. apply bool_decide_eq_false in Hp.
  destruct (accepted self line) as [key|]; [|done].
  destruct Hp. eauto.
Qed.

Lemma counters_sum_to_parsed_lines_witness :
  file_size mixed_flow_log ≤ MAX_FILE_SIZE
  ∧ ∃ tags combos warnings,
      analyze_logs test_analyzer (Some mixed_flow_log) = Ok (tags, combos, warnings)
      ∧ sum_values tags
        = Z.of_nat (length (filter (λ line, parses test_analyzer line)
                              (file_lines mixed_flow_log)))
      ∧ sum_values combos = sum_values tags
      ∧ ∀ st line, parses test_analyzer line = false →
          ∃ st', analyze_line test_analyzer st line = Ok st'
                 ∧ tag_counts st' = tag_counts st
                 ∧ combo_counts st' = combo_counts st.
Proof.
  split; [by vm_compute|].
  apply (counters_sum_to_parsed_lines test_analyzer mixed_flow_log).
  by vm_compute.
Defined.

Example analyze_mixed_flow_log :
  analyze_logs test_analyzer (Some mixed_flow_log)
  = Ok ([("sv_P2", 1); ("Untagged", 1)],
        [((443, "tcp"), 1); ((25, "udp"), 1)],
        [SkippingInvalidLine OnlyVersion2;
         SkippingInvalidLine (InvalidFieldValue (InvalidPort 70000));
         SkippingInvalidLine (InsufficientFields 0 14)]).
Proof. vm_compute. reflexivity. Qed.

Lemma counted_well_formed {K} `{EqDecision K} (ks : list K) :
  well_formed (incr_all ks []).
Proof. apply incr_all_well_formed, NoDup_nil_2. Qed.

Lemma analyze_logs_well_formed self f tags combos warnings :
  analyze_logs self (Some f) = Ok (tags, combos, warnings) →
  well_formed tags ∧ well_formed combos ∧ all_positive tags ∧ all_positive combos.
Proof.
  unfold analyze_logs. destruct (file_size f >? MAX_FILE_SIZE); [done|].
  rewrite analyze_lines_spec. intros [= <- <- <-]. simpl.
  repeat split.
  - apply incr_all_well_formed, NoDup_nil_2.
  - apply incr_all_well_formed, NoDup_nil_2.
  - apply incr_all_positive, Forall_nil_2.
  - apply incr_all_positive, Forall_nil_2.
Qed.

(** C7. Two flow logs within the size limit whose lines are a permutation
    of one another give equal [tag_counts] and equal [combo_counts]: the
    same keys with the same counts (and so the same items, and the same
    report). *)
Theorem counts_independent_of_line_order (self : FlowLogAnalyzer)
    (size1 size2 : Z) (lines1 lines2 : list string) :
  lines1 ≡ₚ lines2 →
  size1 ≤ MAX_FILE_SIZE → size2 ≤ MAX_FILE_SIZE →
  ∃ tags1 combos1 warnings1 tags2 combos2 warnings2,
    analyze_logs self (Some {| file_size := size1; file_lines := lines1 |})
    = Ok (tags1, combos1, warnings1)
    ∧ analyze_logs self (Some {| file_size := size2; file_lines := lines2 |})
      = Ok (tags2, combos2, warnings2)
    ∧ dict_eq tags1 tags2 ∧ dict_eq combos1 combos2
    ∧ tags1 ≡ₚ tags2 ∧ combos1 ≡ₚ combos2
    ∧ write_results tags1 combos1 = write_results tags2 combos2.
Proof.
  intros Hp H1 H2. eexists _, _, _, _, _, _.
  split; [by apply analyze_logs_spec|]. split; [by apply analyze_logs_spec|].
  simpl.
  assert (parsed_keys self lines1 ≡ₚ parsed_keys self lines2) as Hk
    by (unfold parsed_keys; by rewrite Hp).
  assert (dict_eq (incr_all (classify self <$> parsed_keys self lines1) [])
                  (incr_all (classify self <$> parsed_keys self lines2) [])) as Ht
    by (apply incr_all_Permutation; by rewrite Hk).
  assert (dict_eq (incr_all (parsed_keys self lines1) [])
                  (incr_all (parsed_keys self lines2) [])) as Hc
    by (by apply incr_all_Permutation).
  repeat split; [done|done|..].
  - apply dict_eq_Permutation; [apply counted_well_formed..|done].
  - apply dict_eq_Permutation; [apply counted_well_formed..|done].
  - apply write_results_dict_eq; [apply counted_well_formed..|done|done].
Qed.

Lemma counts_independent_of_line_order_witness :
  file_lines mixed_flow_log ≡ₚ reverse (file_lines mixed_flow_log)
  ∧ 400 ≤ MAX_FILE_SIZE ∧ 400 ≤ MAX_FILE_SIZE
  ∧ ∃ tags1 combos1 warnings1 tags2 combos2 warnings2,
      analyze_logs test_analyzer
        (Some {| file_size := 400; file_lines := file_lines mixed_flow_log |})
      = Ok (tags1, combos1, warnings1)
      ∧ analyze_logs test_analyzer
          (Some {| file_size := 400; file_lines := reverse (file_lines mixed_flow_log) |})
        = Ok (tags2, combos2, warnings2)
      ∧ dict_eq tags1 tags2 ∧ dict_eq combos1 combos2
      ∧ tags1 ≡ₚ tags2 ∧ combos1 ≡ₚ combos2
      ∧ write_results tags1 combos1 = write_results tags2 combos2.
Proof.
  assert (file_lines mixed_flow_log ≡ₚ reverse (file_lines mixed_flow_log)) as Hp
    by (symmetry; apply reverse_Permutation).
  split; [exact Hp|]. split; [by vm_compute|]. split; [by vm_compute|].
  apply (counts_independent_of_line_order test_analyzer 400 400 _ _ Hp);
    by vm_compute.
Defined.

Example analyze_mixed_flow_log_reversed :
  analyze_logs test_analyzer
    (Some {| file_size := 400; file_lines := reverse (file_lines mixed_flow_log) |})
  = Ok ([("Untagged", 1); ("sv_P2", 1)],
        [((25, "udp"), 1); ((443, "tcp"), 1)],
        [SkippingInvalidLine (InsufficientFields 0 14);
         SkippingInvalidLine (InvalidFieldValue (InvalidPort 70000));
         SkippingInvalidLine OnlyVersion2]).
Proof. vm_compute. reflexivity. Qed.

(** C9. Every entry of the two dictionaries [analyze_logs] returns has a
    count of at least 1; no key is held with a count of zero. *)
Theorem returned_counts_at_least_one (self : FlowLogAnalyzer) (f : text_file)
    (tags : dict string) (combos : dict (Z * string)) (warnings : list message) :
  analyze_logs self (Some f) = Ok (tags, combos, warnings) →
  (∀ tag count, (tag, count) ∈ tags → 1 ≤ count)
  ∧ (∀ key count, (key, count) ∈ combos → 1 ≤ count)
  ∧ (∀ tag, get tags tag ≠ Some 0)
  ∧ (∀ key, get combos key ≠ Some 0).
Proof.
  intros (_ & _ & Ht & Hc)%analyze_logs_well_formed.
  unfold all_positive in *. rewrite Forall_forall in Ht. rewrite Forall_forall in Hc.
  repeat split.
  - intros tag count Hin. apply (Ht _ Hin).
  - intros key count Hin. apply (Hc _ Hin).
  - intros tag Hg%get_Some_elem_of. specialize (Ht _ Hg). simpl in Ht. lia.
  - intros key Hg%get_Some_elem_of. specialize (Hc _ Hg). simpl in Hc. lia.
Qed.

Lemma returned_counts_at_least_one_witness :
  analyze_logs test_analyzer (Some test_flow_log)
  = Ok ([("sv_P2", 1); ("sv_P1", 2)],
        [((443, "tcp"), 1); ((23, "tcp"), 1); ((25, "tcp"), 1)], [])
  ∧ (∀ tag count, (tag, count) ∈ [("sv_P2", 1); ("sv_P1", 2)] → 1 ≤ count)
  ∧ (∀ key count,
       (key, count) ∈ [((443, "tcp"), 1); ((23, "tcp"), 1); ((25, "tcp"), 1)] →
       1 ≤ count)
  ∧ (∀ tag, get [("sv_P2", 1); ("sv_P1", 2)] tag ≠ Some 0)
  ∧ (∀ key, get [((443, "tcp"), 1); ((23, "tcp"), 1); ((25, "tcp"), 1)] key ≠ Some 0).
Proof.
  assert (analyze_logs test_analyzer (Some test_flow_log)
          = Ok ([("sv_P2", 1); ("sv_P1", 2)],
                [((443, "tcp"), 1); ((23, "tcp"), 1); ((25, "tcp"), 1)], [])) as H
    by (vm_compute; reflexivity).
  split; [exact H|].
  exact (returned_counts_at_least_one test_analyzer test_flow_log _ _ _ H).
Defined.

Lemma accepted_fields self line field6 dst_port protocol :
  (14 ≤ length (fields_of line))%nat →
  fields_of line !! 0%nat = Some "2" →
  fields_of line !! 6%nat = Some field6 →
  Py.int field6 = Some dst_port → 0 ≤ dst_port ≤ 65535 →
  fields_of line !! 7%nat = Some protocol →
  Py.isdigit protocol = true →
  accepted self line = Some (dst_port, _normalize_protocol self protocol).
Proof.
  intros Hlen E0 E6 Hint Hrange E7 Hd. unfold accepted, valid_port.
  rewrite (proj2 (Nat.ltb_ge _ _) Hlen), E0, E6, E7. simpl.
  rewrite Hint, (proj2 (Z.leb_le 0 dst_port)), (proj2 (Z.leb_le dst_port 65535)) by lia.
  simpl. by rewrite Hd.
Qed.

(** C10. A line that is otherwise valid and whose protocol token is all
    digits but no key of the active protocol map parses, and its key carries
    the token itself; the record is counted under that key, and the report
    of a log made of that line shows the token in the protocol column. *)
Theorem unmapped_numeric_protocol_kept (self : FlowLogAnalyzer)
    (line field6 : string) (dst_port : Z) (protocol : string) :
  (14 ≤ length (fields_of line))%nat →
  fields_of line !! 0%nat = Some "2" →
  fields_of line !! 6%nat = Some field6 →
  Py.int field6 = Some dst_port → 0 ≤ dst_port ≤ 65535 →
  fields_of line !! 7%nat = Some protocol →
  Py.isdigit protocol = true →
  protocol_map self !! protocol = None →
  _parse_flow_log_line self line = Ok (dst_port, protocol)
  ∧ (∀ st, ∃ st',
       analyze_line self st line = Ok st'
       ∧ get (combo_counts st') (dst_port, protocol)
         = Some (default 0 (get (combo_counts st) (dst_port, protocol)) + 1))
  ∧ (∀ size, size ≤ MAX_FILE_SIZE →
       analyze_logs self (Some {| file_size := size; file_lines := [line] |})
       = Ok ([(classify self (dst_port, protocol), 1)],
             [((dst_port, protocol), 1)], []))
  ∧ write_results [(classify self (dst_port, protocol), 1)]
                  [((dst_port, protocol), 1)]
    = write_all ["Tag Counts:
"; "Tag,Count
"; classify self (dst_port, protocol) +:+ ",1
"; "
Port/Protocol Combination Counts:
"; "Port,Protocol,Count
"; Py.str dst_port +:+ "," +:+ protocol +:+ ",1
"].
Proof.
  intros Hlen E0 E6 Hint Hrange E7 Hd Hmiss.
  pose proof (accepted_fields self _ _ _ _ Hlen E0 E6 Hint Hrange E7 Hd) as Hacc.
  assert (_normalize_protocol self protocol = protocol) as Hn.
  { rewrite <- (isdigit_lower _ Hd) in Hmiss.
    rewrite (normalize_miss _ _ Hmiss). by apply isdigit_lower. }
  rewrite Hn in Hacc.
  split; [by apply parse_Some|]. split; [|split].
  - intros st. eexists. split; [apply analyze_line_spec|].
    rewrite Hacc. simpl. rewrite get_incr. by rewrite decide_True.
  - intros size Hsize. rewrite analyze_logs_spec by done.
    unfold parsed_keys, skipped. simpl.
    by rewrite Hacc, (parse_Some _ _ _ Hacc).
  - reflexivity.
Qed.

Lemma unmapped_numeric_protocol_kept_witness :
  (14 ≤ length (fields_of protocol_99_line))%nat
  ∧ fields_of protocol_99_line !! 0%nat = Some "2"
  ∧ fields_of protocol_99_line !! 6%nat = Some "8080"
  ∧ Py.int "8080" = Some 8080 ∧ 0 ≤ 8080 ≤ 65535
  ∧ fields_of protocol_99_line !! 7%nat = Some "99"
  ∧ Py.isdigit "99" = true
  ∧ protocol_map test_analyzer !! "99" = None
  ∧ _parse_flow_log_line test_analyzer protocol_99_line = Ok (8080, "99")
  ∧ analyze_logs test_analyzer
      (Some {| file_size := 110; file_lines := [protocol_99_line] |})
    = Ok ([("Untagged", 1)], [((8080, "99"), 1)], []).
Proof.
  assert ((14 ≤ length (fields_of protocol_99_line))%nat) as H1
    by (vm_compute; lia).
  assert (fields_of protocol_99_line !! 0%nat = Some "2") as H2
    by (vm_compute; reflexivity).
  assert (fields_of protocol_99_line !! 6%nat = Some "8080") as H3
    by (vm_compute; reflexivity).
  assert (Py.int "8080" = Some 8080) as H4 by (vm_compute; reflexivity).
  assert (0 ≤ 8080 ≤ 65535) as H5 by lia.
  assert (fields_of protocol_99_line !! 7%nat = Some "99") as H6
    by (vm_compute; reflexivity).
  assert (Py.isdigit "99" = true) as H7 by (vm_compute; reflexivity).
  assert (protocol_map test_analyzer !! "99" = None) as H8
    by (vm_compute; reflexivity).
  destruct (unmapped_numeric_protocol_kept test_analyzer protocol_99_line
              "8080" 8080 "99" H1 H2 H3 H4 H5 H6 H7 H8) as (P1 & _ & P3 & _).
  do 8 (split; [assumption|]). split; [exact P1|].
  apply (P3 110). by vm_compute.
Defined.

Lemma app_cons c r s : String c r +:+ s = String c (r +:+ s).
Proof. reflexivity. Qed.

Lemma app_nil_l_str s : "" +:+ s = s.
Proof. reflexivity. Qed.

Lemma app_nil_r_str s : s +:+ "" = s.
Proof. induction s as [|c s IH]; [done|]. by rewrite app_cons, IH. Qed.

Lemma app_assoc_str s1 s2 s3 : (s1 +:+ s2) +:+ s3 = s1 +:+ (s2 +:+ s3).
Proof. induction s1 as [|c s1 IH]; [done|]. by rewrite !app_cons, IH. Qed.

Lemma strict_key_le (k1 k2 : Z * string) :
  strict key_le k1 k2 → k1.1 < k2.1 ∨ (k1.1 = k2.1 ∧ strict String.le k1.2 k2.2).
Proof.
  destruct k1 as [p1 s1], k2 as [p2 s2]. unfold key_le, lex_le, strict. simpl.
  intros [[[Hle Hnle]|[-> Hs]] Hn].
  - left. lia.
  - right. split; [done|]. split; [done|].
    intros Hs'. apply Hn. right. done.
Qed.

Lemma StronglySorted_weaken {A} (R R' : relation A) (l : list A) :
  (∀ x y, R x y → R' x y) → StronglySorted R l → StronglySorted R' l.
Proof.
  intros HR. induction 1 as [|x l Hs IH Hx]; constructor; [done|].
  eapply Forall_impl; [exact Hx|]. intros y. apply HR.
Qed.

Lemma write_all_app (l1 l2 : list string) :
  write_all (l1 ++ l2) = write_all l1 +:+ write_all l2.
Proof.
  unfold write_all. induction l1 as [|x l1 IH]; [done|].
  cbn [app foldr]. by rewrite IH, app_assoc_str.
Qed.

(** A sequence of writes leaves the concatenation of the chunks. *)
Lemma write_all_concat (chunks : list string) :
  write_all chunks = String.concat "" chunks.
Proof.
  unfold write_all. induction chunks as [|x [|y chunks] IH]; [done| |].
  - cbn [foldr String.concat]. apply app_nil_r_str.
  - change (String.concat "" (x :: y :: chunks))
      with (x +:+ String.concat "" (y :: chunks)).
    by rewrite <- IH.
Qed.

Lemma write_results_text (tags : dict string) (combos : dict (Z * string)) :
  write_results tags combos
  = "Tag Counts:
" +:+ "Tag,Count
" +:+ String.concat "" (tag_line <$> sorted tag_item_le tags) +:+ "
" +:+ "Port/Protocol Combination Counts:
" +:+ "Port,Protocol,Count
" +:+ String.concat "" (combo_line <$> sorted combo_item_le combos).
Proof.
  unfold write_results.
  rewrite (write_all_app [_; _]), write_all_app, (write_all_app [_; _]).
  by rewrite !write_all_concat.
Qed.

(** C6. Two pairs of dictionaries that are equal as mappings, whatever the
    order their entries were inserted in, give the same text, character for
    character. With every count and port within the 4300 digits that
    Python converts to text, the text is: the title line and the column
    header of the tag section; one row [tag,count] per tag, in ascending
    order of the tags; one empty line; the title line and the column header
    of the combination section; one row [port,protocol,count] per key, in
    ascending order of the port and then of the protocol. Every entry has
    its row, no row is repeated, and nothing follows the last row. The
    numbers are written in decimal. *)
Theorem write_results_sorted_and_deterministic
    (tags1 tags2 : dict string) (combos1 combos2 : dict (Z * string)) :
  let decimal (n : Z) : string := NilZero.string_of_int (Z.to_int n) in
  let tag_row (row : string * Z) : string :=
    row.1 +:+ "," +:+ decimal row.2 +:+ "
" in
  let combo_row (row : (Z * string) * Z) : string :=
    decimal row.1.1 +:+ "," +:+ row.1.2 +:+ "," +:+ decimal row.2 +:+ "
" in
  well_formed tags1 → well_formed tags2 →
  well_formed combos1 → well_formed combos2 →
  dict_eq tags1 tags2 → dict_eq combos1 combos2 →
  Forall (λ row, str_within_limit row.2) tags1 →
  Forall (λ row, str_within_limit row.1.1 ∧ str_within_limit row.2) combos1 →
  write_results tags1 combos1 = write_results tags2 combos2
  ∧ ∃ tag_rows combo_rows,
      tag_rows ≡ₚ tags1 ∧ combo_rows ≡ₚ combos1
      ∧ StronglySorted tag_before tag_rows
      ∧ StronglySorted combo_before combo_rows
      ∧ write_results tags1 combos1
        = "Tag Counts:
" +:+ "Tag,Count
" +:+ String.concat "" (tag_row <$> tag_rows) +:+ "
" +:+ "Port/Protocol Combination Counts:
" +:+ "Port,Protocol,Count
" +:+ String.concat "" (combo_row <$> combo_rows).
Proof.
  intros decimal tag_row combo_row Ht1 Ht2 Hc1 Hc2 Ht Hc _ _.
  split; [by apply write_results_dict_eq|].
  exists (sorted tag_item_le tags1), (sorted combo_item_le combos1).
  split; [apply sorted_Permutation|]. split; [apply sorted_Permutation|].
  split; [by apply (sorted_items_by_key String.le)|]. split.
  - eapply StronglySorted_weaken; [|by apply (sorted_items_by_key key_le)].
    intros x y. apply strict_key_le.
  - apply write_results_text.
Qed.

Lemma write_results_sorted_and_deterministic_witness :
  well_formed [("sv_P1", 2); ("Untagged", 1)]
  ∧ well_formed [("Untagged", 1); ("sv_P1", 2)]
  ∧ well_formed [((49153, "tcp"), 1); ((23, "udp"), 1); ((23, "tcp"), 1)]
  ∧ well_formed [((23, "tcp"), 1); ((23, "udp"), 1); ((49153, "tcp"), 1)]
  ∧ dict_eq [("sv_P1", 2); ("Untagged", 1)] [("Untagged", 1); ("sv_P1", 2)]
  ∧ dict_eq [((49153, "tcp"), 1); ((23, "udp"), 1); ((23, "tcp"), 1)]
            [((23, "tcp"), 1); ((23, "udp"), 1); ((49153, "tcp"), 1)]
  ∧ Forall (λ row : string * Z, str_within_limit row.2) [("sv_P1", 2); ("Untagged", 1)]
  ∧ Forall (λ row : (Z * string) * Z, str_within_limit row.1.1 ∧ str_within_limit row.2)
      [((49153, "tcp"), 1); ((23, "udp"), 1); ((23, "tcp"), 1)]
  ∧ write_results [("sv_P1", 2); ("Untagged", 1)]
                  [((49153, "tcp"), 1); ((23, "udp"), 1); ((23, "tcp"), 1)]
    = write_results [("Untagged", 1); ("sv_P1", 2)]
                    [((23, "tcp"), 1); ((23, "udp"), 1); ((49153, "tcp"), 1)]
  ∧ write_results [("Untagged", 1); ("sv_P1", 2)]
                  [((23, "tcp"), 1); ((23, "udp"), 1); ((49153, "tcp"), 1)]
    = "Tag Counts:
Tag,Count
Untagged,1
sv_P1,2

Port/Protocol Combination Counts:
Port,Protocol,Count
23,tcp,1
23,udp,1
49153,tcp,1
".
Proof.
  assert (well_formed [("sv_P1", 2); ("Untagged", 1)]) as H1
    by (unfold well_formed, keys; apply (bool_decide_unpack _); by vm_compute).
  assert (well_formed [("Untagged", 1); ("sv_P1", 2)]) as H2
    by (unfold well_formed, keys; apply (bool_decide_unpack _); by vm_compute).
  assert (well_formed [((49153, "tcp"), 1); ((23, "udp"), 1); ((23, "tcp"), 1)]) as H3
    by (unfold well_formed, keys; apply (bool_decide_unpack _); by vm_compute).
  assert (well_formed [((23, "tcp"), 1); ((23, "udp"), 1); ((49153, "tcp"), 1)]) as H4
    by (unfold well_formed, keys; apply (bool_decide_unpack _); by vm_compute).
  assert (dict_eq [("sv_P1", 2); ("Untagged", 1)] [("Untagged", 1); ("sv_P1", 2)]) as H5
    by (apply Permutation_dict_eq; [exact H1|apply perm_swap]).
  assert (dict_eq [((49153, "tcp"), 1); ((23, "udp"), 1); ((23, "tcp"), 1)]
                  [((23, "tcp"), 1); ((23, "udp"), 1); ((49153, "tcp"), 1)]) as H6
    by (apply Permutation_dict_eq; [exact H3|];
        change [((23, "tcp"), 1); ((23, "udp"), 1); ((49153, "tcp"), 1)]
          with (reverse [((49153, "tcp"), 1); ((23, "udp"), 1); ((23, "tcp"), 1)]);
        symmetry; apply reverse_Permutation).
  assert (Forall (λ row : string * Z, str_within_limit row.2)
            [("sv_P1", 2); ("Untagged", 1)]) as H7
    by (repeat constructor).
  assert (Forall (λ row : (Z * string) * Z,
                    str_within_limit row.1.1 ∧ str_within_limit row.2)
            [((49153, "tcp"), 1); ((23, "udp"), 1); ((23, "tcp"), 1)]) as H8
    by (repeat constructor).
  do 8 (split; [assumption|]).
  pose proof (proj1 (write_results_sorted_and_deterministic _ _ _ _
                       H1 H2 H3 H4 H5 H6 H7 H8)) as E.
  split; [exact E|]. vm_compute. reflexivity.
Defined.

(** C4. When every row of the lookup file is well formed, the file loads,
    and a key is classified by the tag of the last row that normalizes to
    it, whatever earlier rows said. *)
Theorem last_lookup_entry_wins (self : FlowLogAnalyzer)
    (pre post : list (gmap string string)) (row : gmap string string)
    (key : Z * string) (tag : string) :
  Forall (λ r, is_Some (lookup_entry self r)) (pre ++ row :: post) →
  lookup_entry self row = Some (key, tag) →
  (∀ r tag', r ∈ post → lookup_entry self r ≠ Some (key, tag')) →
  ∃ self',
    _load_lookup_file self (Table (pre ++ row :: post)) = Ok self'
    ∧ protocol_map self' = protocol_map self
    ∧ tag_mappings self' !! key = Some tag
    ∧ classify self' key = tag.
Proof.
  intros Hall Hrow Hpost.
  destruct (mapM_is_Some_2 (lookup_entry self) _ Hall) as [entries Hm].
  pose proof Hm as HF. apply mapM_Some in HF.
  apply Forall2_app_inv_l in HF as (epre & erest & Hpre & Hrest & ->).
  apply Forall2_cons_inv_l in Hrest as (e & epost & He & Hepost & ->).
  rewrite Hrow in He. injection He as <-.
  assert (key ∉ epost.*1) as Hfresh.
  { clear -Hepost Hpost. induction Hepost as [|r e post epost Hr _ IH]; simpl.
    - apply not_elem_of_nil.
    - apply not_elem_of_cons. split.
      + intros ->. apply (Hpost r e.2); [left|]. by destruct e.
      + apply IH. intros r' tag' Hin. apply Hpost. by right. }
  eexists. unfold _load_lookup_file. rewrite (lookup_rows_Some _ _ _ Hm).
  split; [done|]. simpl. split; [done|].
  pose proof (fold_insert_last (tag_mappings self) epre epost key tag Hfresh) as Hl.
  split; [exact Hl|]. unfold classify. simpl.
  etrans; [|exact (f_equal (default "Untagged") Hl)]. done.
Qed.

Lemma last_lookup_entry_wins_witness :
  Forall (λ r, is_Some (lookup_entry builtin_analyzer r))
    ([lookup_row_of "443" "tcp" "first"; lookup_row_of "25" "tcp" "mail"]
     ++ lookup_row_of " 443" "6" "second" :: [lookup_row_of "443" "udp" "third"])
  ∧ lookup_entry builtin_analyzer (lookup_row_of " 443" "6" "second")
    = Some ((443, "tcp"), "second")
  ∧ (∀ r tag', r ∈ [lookup_row_of "443" "udp" "third"] →
       lookup_entry builtin_analyzer r ≠ Some ((443, "tcp"), tag'))
  ∧ ∃ self',
      _load_lookup_file builtin_analyzer
        (Table ([lookup_row_of "443" "tcp" "first"; lookup_row_of "25" "tcp" "mail"]
                ++ lookup_row_of " 443" "6" "second"
                   :: [lookup_row_of "443" "udp" "third"])) = Ok self'
      ∧ protocol_map self' = protocol_map builtin_analyzer
      ∧ tag_mappings self' !! (443, "tcp") = Some "second"
      ∧ classify self' (443, "tcp") = "second".
Proof.
  assert (Forall (λ r, is_Some (lookup_entry builtin_analyzer r))
    ([lookup_row_of "443" "tcp" "first"; lookup_row_of "25" "tcp" "mail"]
     ++ lookup_row_of " 443" "6" "second" :: [lookup_row_of "443" "udp" "third"]))
    as H1 by (repeat constructor; vm_compute; eauto).
  assert (lookup_entry builtin_analyzer (lookup_row_of " 443" "6" "second")
          = Some ((443, "tcp"), "second")) as H2 by (vm_compute; reflexivity).
  assert (∀ r tag', r ∈ [lookup_row_of "443" "udp" "third"] →
            lookup_entry builtin_analyzer r ≠ Some ((443, "tcp"), tag')) as H3.
  { intros r tag' Hin. apply list_elem_of_singleton in Hin. subst r.
    vm_compute. intros [=]. }
  split; [exact H1|]. split; [exact H2|]. split; [exact H3|].
  exact (last_lookup_entry_wins builtin_analyzer _ _ _ _ _ H1 H2 H3).
Defined.

Lemma elem_of_contributions entries k name :
  (k, name) ∈ contributions entries
  ↔ ∃ number, (number, name) ∈ entries ∧ (k = number ∨ k = name).
Proof.
  unfold contributions. rewrite list_elem_of_bind. split.
  - intros ([number name'] & Hin & He). simpl in Hin.
    apply elem_of_cons in Hin as [[= -> ->]|Hin].
    + exists number. auto.
    + apply list_elem_of_singleton in Hin as [= -> ->]. exists number. auto.
  - intros (number & He & [->| ->]); exists (number, name); simpl.
    + split; [left|done].
    + split; [right; left|done].
Qed.

(** C5. When the protocol file has both columns in every row, the active
    map holds the assignments of the rows and nothing else: each row assigns
    its name to its number and then to the name itself, a later assignment
    to a key replacing an earlier one; a key no row assigns is absent, a
    built-in key too. When a row lacks a column, or the file cannot be
    read, the method returns the built-in map and prints a warning. *)
Theorem loaded_protocol_table_replaces_defaults (rows : list (gmap string string)) :
  (∀ entries, mapM protocol_entry rows = Some entries →
     ∃ m, _load_protocol_mappings (Table rows) = (m, [])
          ∧ m = list_to_map (reverse (contributions entries))
          ∧ (∀ k name, m !! k = Some name →
               ∃ number, (number, name) ∈ entries ∧ (k = number ∨ k = name))
          ∧ (∀ number name, (number, name) ∈ entries →
               is_Some (m !! number) ∧ is_Some (m !! name))
          ∧ (∀ k, (∀ number name, (number, name) ∈ entries → k ≠ number ∧ k ≠ name) →
               m !! k = None))
  ∧ (mapM protocol_entry rows = None →
     _load_protocol_mappings (Table rows) = (DEFAULT_PROTOCOL_MAP, [ProtocolFileError]))
  ∧ _load_protocol_mappings Unreadable = (DEFAULT_PROTOCOL_MAP, [ProtocolFileError]).
Proof.
  split; [|split; [apply load_protocol_mappings_None|done]].
  intros entries Hm. eexists. split; [by apply load_protocol_mappings_Some|].
  split; [done|].
  assert (∀ k, k ∈ (reverse (contributions entries)).*1
               ↔ ∃ number name, (number, name) ∈ entries ∧ (k = number ∨ k = name))
    as Hkeys.
  { intros k. rewrite list_elem_of_fmap. split.
    - intros ([k' name] & -> & Hin). rewrite elem_of_reverse in Hin.
      apply elem_of_contributions in Hin as (number & ? & ?). eauto.
    - intros (number & name & Hin & Hk). exists (k, name). split; [done|].
      rewrite elem_of_reverse. apply elem_of_contributions. eauto. }
  split; [|split].
  - intros k name Hl%elem_of_list_to_map_2. rewrite elem_of_reverse in Hl.
    by apply elem_of_contributions.
  - intros number name Hin.
    split; apply not_eq_None_Some; intros Hn%not_elem_of_list_to_map_2;
      apply Hn, Hkeys; eauto.
  - intros k Hk. apply not_elem_of_list_to_map_1.
    intros (number & name & Hin & Hor)%Hkeys.
    destruct (Hk _ _ Hin). by destruct Hor.
Qed.

Lemma loaded_protocol_table_replaces_defaults_witness :
  mapM protocol_entry
    [<["protocol_number" := "47"]> (<["protocol_name" := "gre"]> ∅)]
  = Some [("47", "gre")]
  ∧ ∃ m, _load_protocol_mappings
           (Table [<["protocol_number" := "47"]> (<["protocol_name" := "gre"]> ∅)])
         = (m, [])
         ∧ m !! "47" = Some "gre" ∧ m !! "gre" = Some "gre" ∧ m !! "6" = None.
Proof.
  assert (mapM protocol_entry
            [<["protocol_number" := "47"]> (<["protocol_name" := "gre"]> ∅)]
          = Some [("47", "gre")]) as H by (vm_compute; reflexivity).
  split; [exact H|].
  destruct (proj1 (loaded_protocol_table_replaces_defaults _) _ H)
    as (m & Hload & -> & _ & _ & _).
  eexists. split; [exact Hload|]. repeat split; vm_compute; reflexivity.
Defined.

Example protocol_file_without_column :
  _load_protocol_mappings (Table [<["protocol_number" := "47"]> ∅])
  = (DEFAULT_PROTOCOL_MAP, [ProtocolFileError]).
Proof. vm_compute. reflexivity. Qed.

(** C3. The code breaks the claim once a protocol table with upper-case
    names is loaded. With the rows (6, TCP) and (17, UDP) the token "6" is
    resolved to "TCP", which is not lower-case, while the tokens "TCP" and
    "tcp" are resolved to "tcp": one protocol has two names. The loader
    stores the entry TCP -> TCP besides 6 -> TCP, but under the key as the
    file spells it, and every lookup lowers its token first, so no token
    reaches that entry. *)
Theorem normalize_returns_table_name_verbatim :
  __init__ iana_keywords (Table []) = (Ok (loaded_analyzer iana_keywords), [])
  ∧ _normalize_protocol (loaded_analyzer iana_keywords) "6" = "TCP"
  ∧ Py.lower (_normalize_protocol (loaded_analyzer iana_keywords) "6") = "tcp"
  ∧ _normalize_protocol (loaded_analyzer iana_keywords) "TCP" = "tcp"
  ∧ _normalize_protocol (loaded_analyzer iana_keywords) "tcp" = "tcp"
  ∧ protocol_map (loaded_analyzer iana_keywords) !! "TCP" = Some "TCP"
  ∧ protocol_map (loaded_analyzer iana_keywords) !! "tcp" = None
  ∧ ∀ token, Py.lower token ≠ "TCP".
Proof.
  do 7 (split; [vm_compute; reflexivity|]).
  intros token Hl. pose proof (lower_idemp token) as Hi.
  rewrite Hl in Hi. vm_compute in Hi. discriminate Hi.
Qed.

(** What the two names cost: under that table a lookup row for 443 and
    TCP is entered under "tcp", a line of protocol 6 on port 443 is counted
    under "TCP", and the line stays untagged; without the table the same
    row tags the same line. *)
Example upper_case_table_breaks_tagging :
  (let* self := (__init__ iana_keywords (Table [lookup_row_of "443" "TCP" "sv_P2"])).1 in
   analyze_logs self (Some {| file_size := 104; file_lines := [bare_line] |}))
  = Ok ([("Untagged", 1)], [((443, "TCP"), 1)], [])
  ∧ (let* self := (__init__ Missing (Table [lookup_row_of "443" "TCP" "sv_P2"])).1 in
     analyze_logs self (Some {| file_size := 104; file_lines := [bare_line] |}))
    = Ok ([("sv_P2", 1)], [((443, "tcp"), 1)], []).
Proof. split; vm_compute; reflexivity. Qed.

(** What the code keeps of that claim under every map: [_normalize_protocol]
    depends on the token only through its lower-case form. When that form is
    not a key of the active map it is the result; when it is a key, the
    result is the name the map holds for it. The result is lower-case
    whenever every name in the map is, and so for every token under the
    built-in map. *)
Theorem normalize_protocol_lookup (self : FlowLogAnalyzer) (token : string) :
  (∀ token', Py.lower token' = Py.lower token →
     _normalize_protocol self token' = _normalize_protocol self token)
  ∧ (protocol_map self !! Py.lower token = None →
     _normalize_protocol self token = Py.lower token)
  ∧ (∀ name, protocol_map self !! Py.lower token = Some name →
     _normalize_protocol self token = name)
  ∧ (map_Forall (λ _ name, is_lower name) (protocol_map self) →
     is_lower (_normalize_protocol self token))
  ∧ (protocol_map self = DEFAULT_PROTOCOL_MAP →
     is_lower (_normalize_protocol self token)).
Proof.
  split; [intros token'; apply normalize_same_lower|].
  split; [apply normalize_miss|].
  split; [intros name; apply normalize_hit|].
  split; [apply normalize_is_lower|].
  intros Hm. apply normalize_is_lower. rewrite Hm. apply default_map_lower.
Qed.

Lemma normalize_protocol_lookup_witness :
  Py.lower "tcp" = Py.lower "TCP"
  ∧ _normalize_protocol builtin_analyzer "tcp" = _normalize_protocol builtin_analyzer "TCP"
  ∧ protocol_map builtin_analyzer = DEFAULT_PROTOCOL_MAP
  ∧ is_lower (_normalize_protocol builtin_analyzer "TCP").
Proof.
  destruct (normalize_protocol_lookup builtin_analyzer "TCP") as (H1 & _ & _ & _ & H5).
  assert (Py.lower "tcp" = Py.lower "TCP") as E by (vm_compute; reflexivity).
  split; [exact E|]. split; [exact (H1 "tcp" E)|].
  split; [reflexivity|]. exact (H5 eq_refl).
Defined.

(** C8. The code breaks the claim once a protocol table with upper-case
    names is loaded. With the rows (6, TCP) and (17, UDP), resolving "17"
    gives "UDP" and resolving that result gives "udp": normalization is not
    idempotent. The loader stores the entry UDP -> UDP, which would make the
    name a fixed point, under a key that no lowered token equals. *)
Theorem normalize_twice_differs_on_loaded_table :
  __init__ iana_keywords (Table []) = (Ok (loaded_analyzer iana_keywords), [])
  ∧ _normalize_protocol (loaded_analyzer iana_keywords) "17" = "UDP"
  ∧ _normalize_protocol (loaded_analyzer iana_keywords)
      (_normalize_protocol (loaded_analyzer iana_keywords) "17") = "udp"
  ∧ protocol_map (loaded_analyzer iana_keywords) !! "UDP" = Some "UDP"
  ∧ ∀ token, Py.lower token ≠ "UDP".
Proof.
  do 4 (split; [vm_compute; reflexivity|]).
  intros token Hl. pose proof (lower_idemp token) as Hi.
  rewrite Hl in Hi. vm_compute in Hi. discriminate Hi.
Qed.

(** What the code keeps of that claim: normalization is case-insensitive
    under every active map. Under the built-in map it is idempotent, and
    "TCP", "tcp" and "6" all resolve to "tcp". Under any map, it is
    idempotent exactly when every name held under a lower-case key is
    resolved to itself. *)
Theorem normalize_idempotent_case_insensitive (self : FlowLogAnalyzer) :
  (∀ token, _normalize_protocol self (Py.lower token) = _normalize_protocol self token)
  ∧ ((∀ token, _normalize_protocol self (_normalize_protocol self token)
               = _normalize_protocol self token)
     ↔ names_resolve_to_themselves self)
  ∧ (protocol_map self = DEFAULT_PROTOCOL_MAP →
     (∀ token, _normalize_protocol self (_normalize_protocol self token)
               = _normalize_protocol self token)
     ∧ _normalize_protocol self "TCP" = "tcp"
     ∧ _normalize_protocol self "tcp" = "tcp"
     ∧ _normalize_protocol self "6" = "tcp").
Proof.
  split; [apply normalize_lower|]. split; [apply normalize_idemp_iff|].
  intros Hm. split; [by apply normalize_idemp_iff, default_names_resolve|].
  unfold _normalize_protocol. rewrite Hm. repeat split; reflexivity.
Qed.

Lemma normalize_idempotent_case_insensitive_witness :
  protocol_map builtin_analyzer = DEFAULT_PROTOCOL_MAP
  ∧ _normalize_protocol builtin_analyzer (_normalize_protocol builtin_analyzer "UDP")
    = _normalize_protocol builtin_analyzer "UDP"
  ∧ _normalize_protocol builtin_analyzer "TCP" = "tcp"
  ∧ _normalize_protocol builtin_analyzer "tcp" = "tcp"
  ∧ _normalize_protocol builtin_analyzer "6" = "tcp".
Proof.
  destruct (normalize_idempotent_case_insensitive builtin_analyzer) as (_ & _ & H).
  destruct (H eq_refl) as (Hid & H1 & H2 & H3).
  split; [reflexivity|]. split; [exact (Hid "UDP")|]. repeat split; assumption.
Defined.

(** The test of the repository for normalization, under the built-in map
    and under the table of the test. *)
Example test_normalize_protocol :
  ∀ self, self = builtin_analyzer ∨ self = test_analyzer →
    _normalize_protocol self "TCP" = "tcp" ∧ _normalize_protocol self "6" = "tcp"
    ∧ _normalize_protocol self "17" = "udp" ∧ _normalize_protocol self "udp" = "udp".
Proof. intros self [-> | ->]; vm_compute; repeat split; reflexivity. Qed.

(** * Further properties *)

(** ** [split], [strip] and whitespace *)

Lemma split_from_all_space cur ws :
  all_space ws → Py.split_from cur ws = close_field cur.
Proof.
  unfold all_space. revert cur. induction ws as [|c ws IH]; intros cur; simpl; [done|].
  intros [Hc Hws]%andb_true_iff. rewrite Hc.
  destruct cur; rewrite (IH "" Hws); done.
Qed.

Lemma split_from_app_space cur s ws :
  all_space ws → Py.split_from cur (s +:+ ws) = Py.split_from cur s.
Proof.
  intros Hws. revert cur. induction s as [|c s IH]; intros cur.
  - rewrite app_nil_l_str. by rewrite split_from_all_space.
  - rewrite ?app_cons. simpl. destruct (Py.isspace_char c).
    + destruct cur; by rewrite IH.
    + apply IH.
Qed.

Lemma split_space_app ws s :
  all_space ws → Py.split (ws +:+ s) = Py.split s.
Proof.
  unfold all_space, Py.split. induction ws as [|c ws IH]; simpl; [done|].
  intros [Hc Hws]%andb_true_iff. rewrite ?app_cons. simpl. rewrite Hc. by apply IH.
Qed.

Lemma lstrip_spec s : ∃ ws, all_space ws ∧ s = ws +:+ Py.lstrip s.
Proof.
  induction s as [|c s (ws & Hws & IH)]; simpl.
  - by exists "".
  - destruct (Py.isspace_char c) eqn:Hc.
    + exists (String c ws). split.
      * unfold all_space. simpl. by rewrite Hc.
      * rewrite ?app_cons. by rewrite <- IH.
    + by exists "".
Qed.

Lemma rstrip_spec s : ∃ ws, all_space ws ∧ s = Py.rstrip s +:+ ws.
Proof.
  induction s as [|c s (ws & Hws & IH)]; simpl.
  - by exists "".
  - destruct (Py.rstrip s) as [|c' r'] eqn:Hr.
    + destruct (Py.isspace_char c) eqn:Hc.
      * exists (String c ws). split.
        -- unfold all_space. simpl. by rewrite Hc.
        -- by rewrite IH.
      * exists ws. split; [done|]. by rewrite IH.
    + exists ws. split; [done|]. rewrite (app_cons c (String c' r') ws). by rewrite <- IH.
Qed.

(** [strip()] before [split()] changes nothing. *)
Lemma split_strip s : Py.split (Py.strip s) = Py.split s.
Proof.
  unfold Py.strip.
  destruct (lstrip_spec s) as (ws & Hws & Hs).
  destruct (rstrip_spec (Py.lstrip s)) as (ws' & Hws' & Hl).
  rewrite Hs at 2. rewrite (split_space_app _ _ Hws).
  rewrite Hl at 2. unfold Py.split. by rewrite split_from_app_space.
Qed.

Lemma fields_of_split line : fields_of line = Py.split line.
Proof. apply split_strip. Qed.

Lemma fields_of_surrounded ws1 line ws2 :
  all_space ws1 → all_space ws2 →
  fields_of (ws1 +:+ line +:+ ws2) = fields_of line.
Proof.
  intros H1 H2. rewrite !fields_of_split, (split_space_app _ _ H1).
  unfold Py.split. by apply split_from_app_space.
Qed.

(** Reading a field that is followed by more text. *)
Lemma split_from_no_space cur f s :
  no_space f → Py.split_from cur (f +:+ s) = Py.split_from (cur +:+ f) s.
Proof.
  unfold no_space. revert cur. induction f as [|c f IH]; intros cur; simpl.
  - intros _. by rewrite app_nil_l_str, app_nil_r_str.
  - intros [Hc Hf]%andb_true_iff. rewrite ?app_cons. simpl.
    apply negb_true_iff in Hc. rewrite Hc, (IH _ Hf).
    by rewrite app_assoc_str.
Qed.

Lemma split_field_space f s :
  is_field f → Py.split (f +:+ " " +:+ s) = f :: Py.split s.
Proof.
  intros [Hne Hf]. unfold Py.split. rewrite (split_from_no_space _ _ _ Hf).
  rewrite app_nil_l_str, ?app_cons. simpl. by destruct f.
Qed.

Lemma split_field_end f ws :
  is_field f → all_space ws → Py.split (f +:+ ws) = [f].
Proof.
  intros [Hne Hf] Hws. unfold Py.split. rewrite (split_from_no_space _ _ _ Hf).
  rewrite app_nil_l_str, (split_from_all_space _ _ Hws). by destruct f.
Qed.

(** ** [str] and [int] on integers *)

Lemma int_digits_uint acc b d :
  d ≠ Decimal.Nil ∨ b = true →
  Py.int_digits acc b (NilEmpty.string_of_uint d) = Some (uint_value acc d).
Proof.
  revert acc b. induction d; intros acc b Hb;
    try (simpl; rewrite IHd by (by right); reflexivity).
  simpl. by destruct Hb as [?| ->].
Qed.

Lemma of_uint_acc_value d p :
  Z.pos (Pos.of_uint_acc d p) = uint_value (Z.pos p) d.
Proof.
  revert p. induction d; intros p; simpl; [done|..];
    rewrite IHd; f_equal; lia.
Qed.

Lemma of_uint_value d : Z.of_N (Pos.of_uint d) = uint_value 0 d.
Proof.
  induction d; simpl; [done|done|..]; by rewrite of_uint_acc_value.
Qed.

Lemma digits_of_value n : uint_value 0 (digits_of n) = Z.abs n.
Proof.
  destruct n as [|p|p]; simpl; [done|..];
    by rewrite <- of_uint_value, DecimalPos.Unsigned.of_to.
Qed.

Lemma digits_of_nonnil n : digits_of n ≠ Decimal.Nil.
Proof. destruct n; simpl; [done|..]; apply DecimalPos.Unsigned.to_uint_nonnil. Qed.

Lemma str_digits n :
  Py.str n
  = (if n <? 0 then "-" else "") +:+ NilEmpty.string_of_uint (digits_of n).
Proof.
  unfold Py.str. destruct n as [|p|p]; simpl; [done|..].
  - pose proof (DecimalPos.Unsigned.to_uint_nonnil p). by destruct (Pos.to_uint p).
  - pose proof (DecimalPos.Unsigned.to_uint_nonnil p). by destruct (Pos.to_uint p).
Qed.

Lemma string_of_uint_decimal d :
  Py.all_chars Py.isdecimal_char (NilEmpty.string_of_uint d) = true.
Proof. induction d; simpl; [done|..]; exact IHd. Qed.

Lemma all_chars_impl (p q : ascii → bool) s :
  (∀ c, p c = true → q c = true) →
  Py.all_chars p s = true → Py.all_chars q s = true.
Proof.
  intros Hpq. induction s as [|c s IH]; simpl; [done|].
  intros [Hc Hs]%andb_true_iff. by rewrite (Hpq _ Hc), IH.
Qed.

Lemma all_chars_app p s1 s2 :
  Py.all_chars p (s1 +:+ s2) = Py.all_chars p s1 && Py.all_chars p s2.
Proof.
  induction s1 as [|c s1 IH]; [done|].
  rewrite app_cons. simpl. by rewrite IH, andb_assoc.
Qed.

Lemma str_numeral n : Py.all_chars numeral_char (Py.str n) = true.
Proof.
  rewrite str_digits, all_chars_app. apply andb_true_iff. split.
  - by destruct (n <? 0).
  - eapply all_chars_impl; [|apply string_of_uint_decimal].
    intros c Hc. unfold numeral_char. by rewrite Hc.
Qed.

Lemma str_nonempty n : Py.str n ≠ "".
Proof.
  rewrite str_digits. pose proof (digits_of_nonnil n).
  destruct (n <? 0); [done|]. by destruct (digits_of n).
Qed.

Lemma numeral_char_not_space c :
  numeral_char c = true →
  negb (Py.isspace_char c) = true ∧ negb (Py.int_space c) = true.
Proof. destruct c as [[] [] [] [] [] [] [] []]; vm_compute; intros [=]; done. Qed.

(** A rendered integer is a field. *)
Lemma str_is_field n : is_field (Py.str n).
Proof.
  split; [apply str_nonempty|]. unfold no_space.
  eapply all_chars_impl; [|apply str_numeral].
  intros c Hc. by apply numeral_char_not_space.
Qed.

Lemma int_lstrip_id s :
  Py.all_chars (λ c, negb (Py.int_space c)) s = true → Py.int_lstrip s = s.
Proof.
  destruct s as [|c s]; simpl; [done|].
  intros [Hc _]%andb_true_iff. apply negb_true_iff in Hc. by rewrite Hc.
Qed.

Lemma int_rstrip_id s :
  Py.all_chars (λ c, negb (Py.int_space c)) s = true → Py.int_rstrip s = s.
Proof.
  induction s as [|c s IH]; simpl; [done|].
  intros [Hc Hs]%andb_true_iff. apply negb_true_iff in Hc.
  rewrite (IH Hs), Hc. by destruct s.
Qed.

Lemma int_unsigned c s :
  Py.isdecimal_char c = true →
  Py.int (String c s) = Py.int_digits 0 false (Py.int_rstrip (Py.int_lstrip (String c s))).
Proof.
  intros Hc. unfold Py.int.
  assert (Py.int_space c = false) as Hs
    by (revert Hc; destruct c as [[] [] [] [] [] [] [] []]; vm_compute; congruence).
  cbn [Py.int_lstrip]. rewrite Hs.
  assert (∃ r, Py.int_rstrip (String c s) = String c r) as [r ->].
  { cbn [Py.int_rstrip]. destruct (Py.int_rstrip s); [|by eauto].
    rewrite Hs. eauto. }
  revert Hc. destruct c as [[] [] [] [] [] [] [] []]; vm_compute; congruence.
Qed.

(** [int] reads back what [str] writes. *)
Lemma int_str n : Py.int (Py.str n) = Some n.
Proof.
  assert (Py.all_chars (λ c, negb (Py.int_space c)) (Py.str n) = true) as Hns.
  { eapply all_chars_impl; [|apply str_numeral].
    intros c Hc. by apply numeral_char_not_space. }
  pose proof (digits_of_nonnil n) as Hnil.
  pose proof (digits_of_value n) as Hval.
  destruct (Z.ltb_spec n 0) as [Hneg|Hpos].
  - unfold Py.int. rewrite (int_lstrip_id _ Hns), (int_rstrip_id _ Hns).
    rewrite str_digits, (proj2 (Z.ltb_lt n 0) Hneg).
    change (Z.opp <$> Py.int_digits 0 false (NilEmpty.string_of_uint (digits_of n))
            = Some n).
    rewrite int_digits_uint by (by left). simpl. f_equal. lia.
  - assert (∃ c s, Py.str n = String c s ∧ Py.isdecimal_char c = true)
      as (c & s & Hs & Hc).
    { rewrite str_digits, (proj2 (Z.ltb_ge n 0) Hpos), app_nil_l_str.
      pose proof (string_of_uint_decimal (digits_of n)) as Hd.
      destruct (digits_of n) eqn:E; [done|..]; simpl in *; eauto. }
    rewrite Hs, (int_unsigned _ _ Hc), <- Hs.
    rewrite (int_lstrip_id _ Hns), (int_rstrip_id _ Hns).
    rewrite str_digits, (proj2 (Z.ltb_ge n 0) Hpos), app_nil_l_str.
    rewrite int_digits_uint by (by left). f_equal. lia.
Qed.

(** ** The parser as a function of the fields *)

Lemma parse_outcome (self : FlowLogAnalyzer) (line : string) :
  _parse_flow_log_line self line = outcome_of_fields self (fields_of line).
Proof.
  unfold _parse_flow_log_line, outcome_of_fields, fields_of.
  set (fields := Py.split (Py.strip line)).
  change MIN_FIELDS with 14%nat.
  destruct (Nat.ltb_spec (length fields) 14) as [Hlt|Hge]; [done|].
  destruct (lookup_lt_is_Some_2 fields 0%nat ltac:(lia)) as [version E0].
  destruct (lookup_lt_is_Some_2 fields 6%nat ltac:(lia)) as [field6 E6].
  destruct (lookup_lt_is_Some_2 fields 7%nat ltac:(lia)) as [protocol E7].
  unfold getitem, int. rewrite E0, E6, E7. simpl.
  destruct (String.eqb version "2"); simpl; [|done].
  destruct (Py.int field6) as [p|]; simpl; [|done].
  rewrite Z.gtb_ltb.
  destruct ((p <? 0) || (65535 <? p)); [done|].
  destruct (Py.isdigit protocol) eqn:Hd; simpl; [done|].
  rewrite bool_decide_eq_false_2; [done|].
  intros Hin%in_default_map_isdigit. congruence.
Qed.

Lemma parse_Ok_port_range self line dst_port protocol :
  _parse_flow_log_line self line = Ok (dst_port, protocol) → 0 ≤ dst_port ≤ 65535.
Proof.
  rewrite parse_outcome. unfold outcome_of_fields.
  repeat (case_match; try done). intros [= <- <-]. lia.
Qed.

(** X1. The result of [_parse_flow_log_line] is fixed by the fields of the
    line, through the checks in this order: the number of fields, the
    version, the port literal, the port range, the protocol token. A
    protocol token that is not all digits is always refused, and the
    "Invalid flow log line format" error of the [IndexError] handler is
    never raised. *)
Theorem parse_by_fields (self : FlowLogAnalyzer) (line : string) :
  _parse_flow_log_line self line = outcome_of_fields self (fields_of line)
  ∧ (∀ text, _parse_flow_log_line self line ≠ Raise (ValueError (InvalidLineFormat text)))
  ∧ _parse_flow_log_line self line ≠ Raise IndexError.
Proof.
  rewrite parse_outcome. split; [done|]. unfold outcome_of_fields.
  split; [intros text|]; repeat (case_match; try done).
Qed.

(** X2. Whitespace around a line does not change what the parser returns
    or raises; the newline the file iteration leaves at the end of a line
    is of this kind. *)
Theorem parse_ignores_surrounding_whitespace (self : FlowLogAnalyzer)
    (ws1 line ws2 : string) :
  all_space ws1 → all_space ws2 →
  _parse_flow_log_line self (ws1 +:+ line +:+ ws2) = _parse_flow_log_line self line.
Proof.
  intros H1 H2. by rewrite !parse_outcome, fields_of_surrounded.
Qed.

Lemma parse_ignores_surrounding_whitespace_witness :
  all_space "  	" ∧ all_space "
"
  ∧ _parse_flow_log_line builtin_analyzer ("  	" +:+ bare_line +:+ "
")
    = _parse_flow_log_line builtin_analyzer bare_line.
Proof.
  assert (all_space "  	") as H1 by (vm_compute; reflexivity).
  assert (all_space "
") as H2 by (vm_compute; reflexivity).
  split; [exact H1|]. split; [exact H2|].
  exact (parse_ignores_surrounding_whitespace builtin_analyzer _ bare_line _ H1 H2).
Defined.

(** X3. Once a line has 14 fields or more, only fields 0, 6 and 7 are
    looked at: two such lines that agree on these fields parse alike. *)
Theorem parse_reads_three_fields (self : FlowLogAnalyzer) (line1 line2 : string) :
  (14 ≤ length (fields_of line1))%nat → (14 ≤ length (fields_of line2))%nat →
  fields_of line1 !! 0%nat = fields_of line2 !! 0%nat →
  fields_of line1 !! 6%nat = fields_of line2 !! 6%nat →
  fields_of line1 !! 7%nat = fields_of line2 !! 7%nat →
  _parse_flow_log_line self line1 = _parse_flow_log_line self line2.
Proof.
  intros H1 H2 E0 E6 E7. rewrite !parse_outcome. unfold outcome_of_fields.
  rewrite E0, E6, E7.
  by rewrite (proj2 (Nat.ltb_ge _ _) H1), (proj2 (Nat.ltb_ge _ _) H2).
Qed.

Lemma parse_reads_three_fields_witness :
  (14 ≤ length (fields_of bare_line))%nat ∧ (14 ≤ length (fields_of other_line))%nat
  ∧ fields_of bare_line !! 0%nat = fields_of other_line !! 0%nat
  ∧ fields_of bare_line !! 6%nat = fields_of other_line !! 6%nat
  ∧ fields_of bare_line !! 7%nat = fields_of other_line !! 7%nat
  ∧ _parse_flow_log_line builtin_analyzer bare_line
    = _parse_flow_log_line builtin_analyzer other_line.
Proof.
  assert ((14 ≤ length (fields_of bare_line))%nat) as H1 by (vm_compute; lia).
  assert ((14 ≤ length (fields_of other_line))%nat) as H2 by (vm_compute; lia).
  assert (fields_of bare_line !! 0%nat = fields_of other_line !! 0%nat) as H3
    by (vm_compute; reflexivity).
  assert (fields_of bare_line !! 6%nat = fields_of other_line !! 6%nat) as H4
    by (vm_compute; reflexivity).
  assert (fields_of bare_line !! 7%nat = fields_of other_line !! 7%nat) as H5
    by (vm_compute; reflexivity).
  do 5 (split; [assumption|]).
  exact (parse_reads_three_fields builtin_analyzer _ _ H1 H2 H3 H4 H5).
Defined.

(** X4. A key the parser returns has its port in [0, 65535] and a protocol
    obtained from an all-digit token; under the built-in map the protocol
    is "tcp", "udp", "icmp" or that token itself. *)
Theorem parsed_key_range (self : FlowLogAnalyzer) (line : string)
    (dst_port : Z) (protocol : string) :
  _parse_flow_log_line self line = Ok (dst_port, protocol) →
  0 ≤ dst_port ≤ 65535
  ∧ ∃ token, fields_of line !! 7%nat = Some token
             ∧ Py.isdigit token = true
             ∧ protocol = _normalize_protocol self token
             ∧ (protocol_map self = DEFAULT_PROTOCOL_MAP →
                protocol = "tcp" ∨ protocol = "udp" ∨ protocol = "icmp"
                ∨ protocol = token).
Proof.
  rewrite parse_Ok_iff. unfold accepted, valid_port.
  destruct (length (fields_of line) <? 14)%nat; [done|].
  case_bool_decide; [|done].
  destruct (fields_of line !! 6%nat) as [field6|]; simpl; [|done].
  destruct (Py.int field6) as [p|]; simpl; [|done].
  destruct (Z.leb_spec 0 p); simpl; [|done].
  destruct (Z.leb_spec p 65535); simpl; [|done].
  destruct (fields_of line !! 7%nat) as [token|]; simpl; [|done].
  destruct (Py.isdigit token) eqn:Hd; [|done].
  intros [= <- <-]. split; [lia|]. exists token. repeat split; try done.
  intros Hm. unfold _normalize_protocol. rewrite Hm, (isdigit_lower _ Hd).
  destruct (DEFAULT_PROTOCOL_MAP !! token) as [name|] eqn:E; simpl; [|auto].
  apply default_map_values in E as [-> | [-> | ->]]; auto.
Qed.

Lemma parsed_key_range_witness :
  _parse_flow_log_line builtin_analyzer bare_line = Ok (443, "tcp")
  ∧ 0 ≤ 443 ≤ 65535
  ∧ ∃ token, fields_of bare_line !! 7%nat = Some token
             ∧ Py.isdigit token = true
             ∧ "tcp" = _normalize_protocol builtin_analyzer token
             ∧ (protocol_map builtin_analyzer = DEFAULT_PROTOCOL_MAP →
                "tcp" = "tcp" ∨ "tcp" = "udp" ∨ "tcp" = "icmp" ∨ "tcp" = token).
Proof.
  assert (_parse_flow_log_line builtin_analyzer bare_line = Ok (443, "tcp")) as H
    by (vm_compute; reflexivity).
  split; [exact H|].
  exact (parsed_key_range builtin_analyzer bare_line 443 "tcp" H).
Defined.

(** ** What [analyze_logs] counts *)

Lemma occurrences_in {K} `{EqDecision K} (k : K) ks : k ∈ ks → 0 < occurrences k ks.
Proof.
  induction ks as [|k0 ks IH]; [by intros ?%elem_of_nil|].
  rewrite occurrences_cons. intros [->|Hin]%elem_of_cons.
  - rewrite decide_True by done. unfold occurrences. lia.
  - specialize (IH Hin). case_decide; lia.
Qed.

Lemma get_counted {K} `{EqDecision K} (ks : list K) (k : K) :
  get (incr_all ks []) k = entry_of (occurrences k ks).
Proof.
  rewrite get_incr_all. unfold entry_of. simpl.
  destruct (decide (k ∈ ks)) as [Hin|Hin].
  - pose proof (occurrences_in _ _ Hin). rewrite decide_False by lia. done.
  - by rewrite (occurrences_not_in _ _ Hin).
Qed.

Lemma occurrences_omap {A K} `{EqDecision K} (f : A → option K) (l : list A) (k : K) :
  occurrences k (omap f l) = Z.of_nat (length (filter (λ x, f x = Some k) l)).
Proof.
  induction l as [|x l IH]; [done|].
  rewrite filter_cons. cbn [omap list_omap].
  destruct (f x) as [y|] eqn:E.
  - rewrite occurrences_cons, IH. destruct (decide (k = y)) as [->|Hne].
    + rewrite decide_True by done. cbn [length]. lia.
    + rewrite decide_False by congruence. lia.
  - rewrite IH. by rewrite decide_False.
Qed.

Lemma tag_of_line_accepted self line :
  tag_of_line self line = classify self <$> accepted self line.
Proof.
  unfold tag_of_line. pose proof (parse_accepted self line) as P.
  destruct (accepted self line) as [key|]; simpl.
  - by rewrite P.
  - by destruct P as [m ->].
Qed.

Lemma occurrences_parsed_keys self key lines :
  occurrences key (parsed_keys self lines) = lines_with_key self key lines.
Proof.
  unfold parsed_keys, lines_with_key. rewrite occurrences_omap. do 2 f_equal.
  apply list_filter_iff. intros line. by rewrite parse_Ok_iff.
Qed.

Lemma occurrences_parsed_tags self tag lines :
  occurrences tag (classify self <$> parsed_keys self lines)
  = lines_with_tag self tag lines.
Proof.
  unfold parsed_keys, lines_with_tag. rewrite list_fmap_omap, occurrences_omap.
  do 2 f_equal. apply list_filter_iff. intros line. simpl.
  by rewrite tag_of_line_accepted.
Qed.

(** X5. [analyze_logs] asks for the size of the flow log before it opens
    it. A missing file raises the [FileNotFoundError] of the size query as
    it is. A file of more than 10485760 bytes raises the size error, with
    its size, whatever its lines are, and the size error is raised for no
    other file: the bound itself is let through. A result is returned only
    for a file that exists and has at most 10485760 bytes. *)
Theorem analyze_logs_admission (self : FlowLogAnalyzer) (flow_log_file : option text_file) :
  (flow_log_file = None → analyze_logs self flow_log_file = Raise FileNotFoundError)
  ∧ (∀ f, flow_log_file = Some f → MiB10 < file_size f →
       analyze_logs self flow_log_file
       = Raise (Exception (FlowLogTooLarge (file_size f))))
  ∧ (∀ n, analyze_logs self flow_log_file = Raise (Exception (FlowLogTooLarge n)) →
       ∃ f, flow_log_file = Some f ∧ n = file_size f ∧ MiB10 < n)
  ∧ (∀ r, analyze_logs self flow_log_file = Ok r →
       ∃ f, flow_log_file = Some f ∧ file_size f ≤ MiB10).
Proof.
  destruct flow_log_file as [f|]; [|by repeat split].
  destruct (Z.le_gt_cases (file_size f) MiB10) as [Hle|Hgt].
  - rewrite (analyze_logs_spec self f Hle). repeat split; try done.
    + intros f' [= <-] ?. lia.
    + intros r _. by exists f.
  - assert (analyze_logs self (Some f)
            = Raise (Exception (FlowLogTooLarge (file_size f)))) as ->.
    { unfold analyze_logs. change MAX_FILE_SIZE with MiB10.
      by rewrite (proj2 (Z.gtb_lt _ _)) by lia. }
    repeat split; try done.
    + by intros f' [= <-] _.
    + intros n [= <-]. by exists f.
Qed.

Lemma analyze_logs_admission_witness :
  analyze_logs builtin_analyzer None = Raise FileNotFoundError
  ∧ MiB10 < MiB10 + 1
  ∧ analyze_logs builtin_analyzer
      (Some {| file_size := MiB10 + 1; file_lines := [bare_line] |})
    = Raise (Exception (FlowLogTooLarge (MiB10 + 1))).
Proof.
  assert (MiB10 < MiB10 + 1) as H by lia.
  split; [exact (proj1 (analyze_logs_admission builtin_analyzer None) eq_refl)|].
  split; [exact H|].
  exact (proj1 (proj2 (analyze_logs_admission builtin_analyzer
           (Some {| file_size := MiB10 + 1; file_lines := [bare_line] |})))
           _ eq_refl H).
Defined.

(** X6. In the dictionaries [analyze_logs] returns, a key is held with the
    number of lines that parse to it, a tag with the number of lines counted
    under it, and neither is held when that number is zero. *)
Theorem counts_are_exact (self : FlowLogAnalyzer) (f : text_file) :
  file_size f ≤ MAX_FILE_SIZE →
  ∃ tags combos warnings,
    analyze_logs self (Some f) = Ok (tags, combos, warnings)
    ∧ (∀ key, get combos key = entry_of (lines_with_key self key (file_lines f)))
    ∧ (∀ tag, get tags tag = entry_of (lines_with_tag self tag (file_lines f))).
Proof.
  intros Hsize. eexists _, _, _. split; [by apply analyze_logs_spec|]. split.
  - intros key. by rewrite get_counted, occurrences_parsed_keys.
  - intros tag. by rewrite get_counted, occurrences_parsed_tags.
Qed.

Lemma counts_are_exact_witness :
  file_size mixed_flow_log ≤ MAX_FILE_SIZE
  ∧ ∃ tags combos warnings,
      analyze_logs test_analyzer (Some mixed_flow_log) = Ok (tags, combos, warnings)
      ∧ (∀ key, get combos key
                = entry_of (lines_with_key test_analyzer key (file_lines mixed_flow_log)))
      ∧ (∀ tag, get tags tag
                = entry_of (lines_with_tag test_analyzer tag (file_lines mixed_flow_log))).
Proof.
  assert (file_size mixed_flow_log ≤ MAX_FILE_SIZE) as H by (by vm_compute).
  split; [exact H|]. exact (counts_are_exact test_analyzer mixed_flow_log H).
Defined.

(** X7. Every line of the flow log is accounted for once: it is counted in
    [combo_counts], or a warning is printed for it. The warnings come in the
    order of the lines and carry the error the parser raised. *)
Theorem every_line_counted_or_skipped (self : FlowLogAnalyzer) (f : text_file) :
  file_size f ≤ MAX_FILE_SIZE →
  ∃ tags combos warnings,
    analyze_logs self (Some f) = Ok (tags, combos, warnings)
    ∧ Z.of_nat (length (file_lines f)) = sum_values combos + Z.of_nat (length warnings)
    ∧ warnings
      = omap (λ line, match _parse_flow_log_line self line with
                      | Raise (ValueError m) => Some (SkippingInvalidLine m)
                      | _ => None
                      end) (file_lines f).
Proof.
  intros Hsize. eexists _, _, _. split; [by apply analyze_logs_spec|].
  split; [|done]. rewrite sum_values_incr_all. unfold sum_values. simpl.
  unfold parsed_keys, skipped. induction (file_lines f) as [|line lines IH]; [done|].
  cbn [omap list_omap length]. pose proof (parse_accepted self line) as P.
  destruct (accepted self line) as [key|].
  - rewrite P. cbn [length]. lia.
  - destruct P as [m ->]. cbn [length]. lia.
Qed.

Lemma every_line_counted_or_skipped_witness :
  file_size mixed_flow_log ≤ MAX_FILE_SIZE
  ∧ ∃ tags combos warnings,
      analyze_logs test_analyzer (Some mixed_flow_log) = Ok (tags, combos, warnings)
      ∧ Z.of_nat (length (file_lines mixed_flow_log))
        = sum_values combos + Z.of_nat (length warnings)
      ∧ warnings
        = omap (λ line, match _parse_flow_log_line test_analyzer line with
                        | Raise (ValueError m) => Some (SkippingInvalidLine m)
                        | _ => None
                        end) (file_lines mixed_flow_log).
Proof.
  assert (file_size mixed_flow_log ≤ MAX_FILE_SIZE) as H by (by vm_compute).
  split; [exact H|]. exact (every_line_counted_or_skipped test_analyzer mixed_flow_log H).
Defined.

(** X8. Counting a flow log that is the concatenation of two gives, for
    every key and every tag, the sum of the counts of the two parts. *)
Theorem counts_add_over_concatenation (self : FlowLogAnalyzer)
    (size1 size2 size : Z) (lines1 lines2 : list string) :
  size1 ≤ MAX_FILE_SIZE → size2 ≤ MAX_FILE_SIZE → size ≤ MAX_FILE_SIZE →
  ∃ tags1 combos1 w1 tags2 combos2 w2 tags combos w,
    analyze_logs self (Some {| file_size := size1; file_lines := lines1 |})
    = Ok (tags1, combos1, w1)
    ∧ analyze_logs self (Some {| file_size := size2; file_lines := lines2 |})
      = Ok (tags2, combos2, w2)
    ∧ analyze_logs self (Some {| file_size := size; file_lines := lines1 ++ lines2 |})
      = Ok (tags, combos, w)
    ∧ (∀ key, count_of combos key = count_of combos1 key + count_of combos2 key)
    ∧ (∀ tag, count_of tags tag = count_of tags1 tag + count_of tags2 tag)
    ∧ w = w1 ++ w2.
Proof.
  intros H1 H2 H. eexists _, _, _, _, _, _, _, _, _.
  split; [by apply analyze_logs_spec|]. split; [by apply analyze_logs_spec|].
  split; [by apply analyze_logs_spec|]. simpl.
  assert (∀ {K} `{EqDecision K} (ks1 ks2 : list K) (k : K),
            count_of (incr_all (ks1 ++ ks2) []) k
            = count_of (incr_all ks1 []) k + count_of (incr_all ks2 []) k) as Hadd.
  { intros K ? ks1 ks2 k. unfold count_of. rewrite !get_counted. unfold entry_of.
    assert (occurrences k (ks1 ++ ks2) = occurrences k ks1 + occurrences k ks2) as ->.
    { unfold occurrences. rewrite filter_app, length_app. lia. }
    repeat case_decide; simpl; lia. }
  unfold parsed_keys, skipped. rewrite !omap_app, fmap_app.
  split; [intros key; apply Hadd|]. split; [intros tag; apply Hadd|done].
Qed.

Lemma counts_add_over_concatenation_witness :
  400 ≤ MAX_FILE_SIZE ∧ 330 ≤ MAX_FILE_SIZE ∧ 730 ≤ MAX_FILE_SIZE
  ∧ ∃ tags1 combos1 w1 tags2 combos2 w2 tags combos w,
      analyze_logs test_analyzer
        (Some {| file_size := 400; file_lines := file_lines mixed_flow_log |})
      = Ok (tags1, combos1, w1)
      ∧ analyze_logs test_analyzer
          (Some {| file_size := 330; file_lines := file_lines test_flow_log |})
        = Ok (tags2, combos2, w2)
      ∧ analyze_logs test_analyzer
          (Some {| file_size := 730;
                   file_lines := file_lines mixed_flow_log ++ file_lines test_flow_log |})
        = Ok (tags, combos, w)
      ∧ (∀ key, count_of combos key = count_of combos1 key + count_of combos2 key)
      ∧ (∀ tag, count_of tags tag = count_of tags1 tag + count_of tags2 tag)
      ∧ w = w1 ++ w2.
Proof.
  assert (400 ≤ MAX_FILE_SIZE) as H1 by (by vm_compute).
  assert (330 ≤ MAX_FILE_SIZE) as H2 by (by vm_compute).
  assert (730 ≤ MAX_FILE_SIZE) as H3 by (by vm_compute).
  do 3 (split; [assumption|]).
  exact (counts_add_over_concatenation test_analyzer 400 330 730 _ _ H1 H2 H3).
Defined.

(** ** Errors and misses of the lookup table *)

Lemma lookup_row_cases self row :
  match lookup_row_error row with
  | Some e => lookup_entry self row = None ∧ lookup_row self row = Raise e
  | None => is_Some (lookup_entry self row)
  end.
Proof.
  unfold lookup_row_error, lookup_entry, lookup_row, cell, int.
  destruct (row !! "dstport") as [dstport|]; simpl; [|done].
  destruct (Py.int dstport) as [port|]; simpl; [|done].
  destruct (row !! "protocol") as [token|]; simpl; [|done].
  destruct (row !! "tag") as [tag|]; simpl; [|done]. eauto.
Qed.

Lemma lookup_row_error_None self row :
  lookup_row_error row = None ↔ is_Some (lookup_entry self row).
Proof.
  pose proof (lookup_row_cases self row) as H.
  destruct (lookup_row_error row) as [e|]; [|done].
  destruct H as [-> _]. split; [done|]. by intros [? ?].
Qed.

Lemma lookup_rows_error self pre row post e :
  Forall (λ r, lookup_row_error r = None) pre →
  lookup_row_error row = Some e →
  lookup_rows self (pre ++ row :: post) = Raise e.
Proof.
  intros Hpre Hrow. revert self.
  induction Hpre as [|r pre Hr _ IH]; intros self; simpl.
  - pose proof (lookup_row_cases self row) as H. rewrite Hrow in H.
    destruct H as [_ ->]. done.
  - apply (lookup_row_error_None self) in Hr as [e' He'].
    rewrite (lookup_row_Some _ _ _ He'). simpl. apply IH.
Qed.

Lemma lookup_rows_Ok_inv self rows self' :
  lookup_rows self rows = Ok self' →
  ∃ entries, mapM (lookup_entry self) rows = Some entries.
Proof.
  intros H. apply mapM_is_Some_2. apply Forall_forall. intros row Hin.
  apply list_elem_of_split in Hin as (pre & post & ->).
  simpl. apply (lookup_row_error_None self).
  destruct (lookup_row_error row) as [e|] eqn:E; [|done]. exfalso.
  assert (∃ pre1 r e1 post1, pre ++ row :: post = pre1 ++ r :: post1
            ∧ Forall (λ r, lookup_row_error r = None) pre1
            ∧ lookup_row_error r = Some e1) as (pre1 & r & e1 & post1 & Heq & Hp & Hr).
  { clear H. revert row post e E. induction pre as [|r0 pre IH]; intros row post e E.
    - exists [], row, e, post. by repeat split.
    - destruct (lookup_row_error r0) as [e0|] eqn:E0.
      + exists [], r0, e0, (pre ++ row :: post). by repeat split.
      + destruct (IH row post e E) as (pre1 & r & e1 & post1 & Heq & Hp & Hr).
        exists (r0 :: pre1), r, e1, post1. simpl. rewrite Heq.
        repeat split; [|done]. by constructor. }
  rewrite Heq, (lookup_rows_error self _ _ _ _ Hp Hr) in H. done.
Qed.

Lemma fold_insert_None {K V} `{Countable K} (m : gmap K V) entries k :
  foldl (λ m e, <[e.1 := e.2]> m) m entries !! k = None
  ↔ m !! k = None ∧ k ∉ entries.*1.
Proof.
  revert m. induction entries as [|[k' v'] entries IH]; intros m; simpl.
  - split; [intros ?; split; [done|apply not_elem_of_nil]|by intros [? _]].
  - rewrite IH, lookup_insert_None, not_elem_of_cons. simpl.
    split; [intros [[? ?] ?]|intros [? [? ?]]]; auto.
Qed.

(** X9. A row of the lookup file that cannot be read ends the loading at
    the first such row: a port that is no integer literal gives the
    "Invalid data in lookup file" error, a missing column a [KeyError] that
    no handler of the method rewrites; a missing file gives the "Lookup file
    not found" error. *)
Theorem lookup_file_first_bad_row (self : FlowLogAnalyzer)
    (pre post : list (gmap string string)) (row : gmap string string) (e : exn) :
  Forall (λ r, lookup_row_error r = None) pre →
  lookup_row_error row = Some e →
  _load_lookup_file self (Table (pre ++ row :: post)) = Raise (lookup_handlers e)
  ∧ (∀ dstport, row !! "dstport" = Some dstport → Py.int dstport = None →
       lookup_handlers e = Exception (InvalidLookupData (InvalidLiteral dstport)))
  ∧ (row !! "dstport" = None → lookup_handlers e = KeyError "dstport")
  ∧ _load_lookup_file self Missing = Raise (Exception LookupFileNotFound).
Proof.
  intros Hpre Hrow. split; [|split; [|split; [|done]]].
  - unfold _load_lookup_file. rewrite (lookup_rows_error _ _ _ _ _ Hpre Hrow).
    pose proof (lookup_row_cases self row) as H. rewrite Hrow in H.
    revert Hrow. unfold lookup_row_error.
    repeat (case_match; try done); by intros [= <-].
  - intros dstport Hd Hi. revert Hrow. unfold lookup_row_error.
    rewrite Hd, Hi. by intros [= <-].
  - intros Hd. revert Hrow. unfold lookup_row_error. rewrite Hd. by intros [= <-].
Qed.

Lemma lookup_file_first_bad_row_witness :
  Forall (λ r, lookup_row_error r = None) [lookup_row_of "443" "tcp" "sv_P2"]
  ∧ lookup_row_error (lookup_row_of "4 43" "tcp" "sv_P1")
    = Some (ValueError (InvalidLiteral "4 43"))
  ∧ _load_lookup_file builtin_analyzer
      (Table ([lookup_row_of "443" "tcp" "sv_P2"]
              ++ lookup_row_of "4 43" "tcp" "sv_P1" :: [lookup_row_of "25" "tcp" "sv_P1"]))
    = Raise (Exception (InvalidLookupData (InvalidLiteral "4 43"))).
Proof.
  assert (Forall (λ r, lookup_row_error r = None) [lookup_row_of "443" "tcp" "sv_P2"])
    as H1 by (repeat constructor).
  assert (lookup_row_error (lookup_row_of "4 43" "tcp" "sv_P1")
          = Some (ValueError (InvalidLiteral "4 43"))) as H2 by (vm_compute; reflexivity).
  split; [exact H1|]. split; [exact H2|].
  exact (proj1 (lookup_file_first_bad_row builtin_analyzer _
                  [lookup_row_of "25" "tcp" "sv_P1"] _ _ H1 H2)).
Defined.

(** X10. After the lookup file has loaded, a key that was not in the table
    before and that no row produces is not in it; it is classified
    "Untagged", and so is every line that parses to it. Every row of a file
    that loaded has the three columns and an integer literal as port. *)
Theorem unmatched_key_is_untagged (self self' : FlowLogAnalyzer)
    (lookup_file : csv_file) (key : Z * string) :
  _load_lookup_file self lookup_file = Ok self' →
  tag_mappings self !! key = None →
  (∀ rows row tag, lookup_file = Table rows → row ∈ rows →
     lookup_entry self row ≠ Some (key, tag)) →
  (∃ rows, lookup_file = Table rows ∧ Forall (λ r, lookup_row_error r = None) rows)
  ∧ tag_mappings self' !! key = None
  ∧ classify self' key = "Untagged"
  ∧ ∀ line, _parse_flow_log_line self' line = Ok key →
            tag_of_line self' line = Some "Untagged".
Proof.
  intros Hload Hold Hrows.
  assert (∃ rows, lookup_file = Table rows ∧ lookup_rows self rows = Ok self')
    as (rows & -> & Hl).
  { unfold _load_lookup_file in Hload. destruct lookup_file as [| |rows]; try done.
    exists rows. split; [done|]. by destruct (lookup_rows self rows) as [?|[]]. }
  destruct (lookup_rows_Ok_inv _ _ _ Hl) as [entries Hm].
  rewrite (lookup_rows_Some _ _ _ Hm) in Hl. injection Hl as <-.
  assert (foldl (λ m e, <[e.1 := e.2]> m) (tag_mappings self) entries !! key = None)
    as Hnone.
  { apply fold_insert_None. split; [done|].
    intros ([key' tag] & -> & Hin)%list_elem_of_fmap. simpl in *.
    apply mapM_Some in Hm. apply list_elem_of_lookup in Hin as [i Hi].
    destruct (Forall2_lookup_r _ _ _ _ _ Hm Hi) as (row & Hrow & He).
    apply (Hrows rows row tag); [done| |done].
    by apply list_elem_of_lookup_2 in Hrow. }
  split.
  { exists rows. split; [done|]. apply Forall_forall. intros row Hin.
    apply (lookup_row_error_None self). apply mapM_Some in Hm.
    apply list_elem_of_lookup in Hin as [i Hi].
    destruct (Forall2_lookup_l _ _ _ _ _ Hm Hi) as (e & _ & He). eauto. }
  split; [exact Hnone|].
  assert (classify {| tag_mappings := foldl (λ m e, <[e.1 := e.2]> m) (tag_mappings self) entries;
                      protocol_map := protocol_map self |} key = "Untagged") as Hc
    by (unfold classify; simpl; by rewrite Hnone).
  split; [exact Hc|].
  intros line Hp. unfold tag_of_line. by rewrite Hp, Hc.
Qed.

Lemma unmatched_key_is_untagged_witness :
  _load_lookup_file (fresh_analyzer DEFAULT_PROTOCOL_MAP)
    (Table [lookup_row_of "443" "tcp" "sv_P2"])
  = Ok {| tag_mappings := <[(443, "tcp") := "sv_P2"]> ∅;
          protocol_map := DEFAULT_PROTOCOL_MAP |}
  ∧ tag_mappings (fresh_analyzer DEFAULT_PROTOCOL_MAP) !! (443, "udp") = None
  ∧ (∀ rows row tag, Table [lookup_row_of "443" "tcp" "sv_P2"] = Table rows →
       row ∈ rows →
       lookup_entry (fresh_analyzer DEFAULT_PROTOCOL_MAP) row ≠ Some ((443, "udp"), tag))
  ∧ classify {| tag_mappings := <[(443, "tcp") := "sv_P2"]> ∅;
                protocol_map := DEFAULT_PROTOCOL_MAP |} (443, "udp") = "Untagged".
Proof.
  assert (_load_lookup_file (fresh_analyzer DEFAULT_PROTOCOL_MAP)
            (Table [lookup_row_of "443" "tcp" "sv_P2"])
          = Ok {| tag_mappings := <[(443, "tcp") := "sv_P2"]> ∅;
                  protocol_map := DEFAULT_PROTOCOL_MAP |}) as H1
    by (vm_compute; reflexivity).
  assert (tag_mappings (fresh_analyzer DEFAULT_PROTOCOL_MAP) !! (443, "udp") = None)
    as H2 by reflexivity.
  assert (∀ rows row tag, Table [lookup_row_of "443" "tcp" "sv_P2"] = Table rows →
            row ∈ rows →
            lookup_entry (fresh_analyzer DEFAULT_PROTOCOL_MAP) row
            ≠ Some ((443, "udp"), tag)) as H3.
  { intros rows row tag [= <-] Hin%list_elem_of_singleton. subst row.
    vm_compute. intros [=]. }
  do 3 (split; [assumption|]).
  exact (proj1 (proj2 (proj2 (unmatched_key_is_untagged _ _ _ _ H1 H2 H3)))).
Defined.

Lemma lookup_row_of_cells dstport token tag :
  lookup_row_of dstport token tag !! "dstport" = Some dstport
  ∧ lookup_row_of dstport token tag !! "protocol" = Some token
  ∧ lookup_row_of dstport token tag !! "tag" = Some tag.
Proof.
  unfold lookup_row_of. repeat split.
Qed.

Lemma load_lookup_file_Ok_inv self lookup_file self' :
  _load_lookup_file self lookup_file = Ok self' →
  ∃ rows entries, lookup_file = Table rows
    ∧ mapM (lookup_entry self) rows = Some entries
    ∧ self' = {| tag_mappings :=
                   foldl (λ m e, <[e.1 := e.2]> m) (tag_mappings self) entries;
                 protocol_map := protocol_map self |}.
Proof.
  intros Hload. unfold _load_lookup_file in Hload.
  destruct lookup_file as [| |rows]; try done.
  assert (lookup_rows self rows = Ok self') as Hl
    by (by destruct (lookup_rows self rows) as [?|[]]).
  destruct (lookup_rows_Ok_inv _ _ _ Hl) as [entries Hm].
  rewrite (lookup_rows_Some _ _ _ Hm) in Hl. injection Hl as <-. eauto.
Qed.

Lemma entry_has_row self rows entries key tag :
  mapM (lookup_entry self) rows = Some entries →
  (key, tag) ∈ entries →
  ∃ row, row ∈ rows ∧ lookup_entry self row = Some (key, tag).
Proof.
  intros Hm%mapM_Some [i Hi]%list_elem_of_lookup.
  destruct (Forall2_lookup_r _ _ _ _ _ Hm Hi) as (row & Hrow & He).
  exists row. split; [|done]. by apply list_elem_of_lookup_2 in Hrow.
Qed.

Lemma fold_insert_is_Some {K V} `{Countable K} (m : gmap K V) entries k :
  is_Some (m !! k) ∨ k ∈ entries.*1 →
  is_Some (foldl (λ m e, <[e.1 := e.2]> m) m entries !! k).
Proof.
  revert m. induction entries as [|[k' v'] entries IH]; intros m; simpl.
  - intros [?|Hin]; [done|]. by apply elem_of_nil in Hin.
  - intros Hk. apply IH. destruct (decide (k' = k)) as [->|Hne].
    + left. rewrite lookup_insert_eq. by eexists.
    + rewrite lookup_insert_ne by done.
      destruct Hk as [?|Hin]; [by left|]. right.
      by apply elem_of_cons in Hin as [?|?]; [congruence|].
Qed.

(** X11. A lookup file loads when every row of it holds a text in each of
    the columns dstport, protocol and tag, and the text of the port is an
    integer literal of at most 4300 characters. Loading leaves the protocol
    map as it is, tags the key of every row, and keeps the tag, or the
    absence, of every key that no row produces. *)
Theorem lookup_file_loads (self : FlowLogAnalyzer) (rows : list (gmap string string)) :
  Forall (λ row, ∃ dstport port token tag,
            row !! "dstport" = Some dstport
            ∧ Py.int dstport = Some port ∧ int_within_limit dstport
            ∧ row !! "protocol" = Some token
            ∧ row !! "tag" = Some tag) rows →
  ∃ self',
    _load_lookup_file self (Table rows) = Ok self'
    ∧ protocol_map self' = protocol_map self
    ∧ (∀ row dstport port token,
         row ∈ rows → row !! "dstport" = Some dstport → Py.int dstport = Some port →
         row !! "protocol" = Some token →
         is_Some (tag_mappings self' !! (port, _normalize_protocol self token)))
    ∧ ∀ key, (∀ row tag, row ∈ rows → lookup_entry self row ≠ Some (key, tag)) →
             tag_mappings self' !! key = tag_mappings self !! key.
Proof.
  intros Hrows.
  destruct (mapM_is_Some_2 (lookup_entry self) rows) as [entries Hm].
  { eapply Forall_impl; [exact Hrows|]. intros row. simpl.
    intros (dstport & port & token & tag & Hd & Hi & _ & Ht & Hg).
    unfold lookup_entry. rewrite Hd. simpl. rewrite Hi. simpl.
    rewrite Ht. simpl. rewrite Hg. simpl. by eexists. }
  eexists. split.
  { unfold _load_lookup_file. by rewrite (lookup_rows_Some _ _ _ Hm). }
  split; [done|]. simpl. split.
  - intros row dstport port token Hin Hd Hi Ht.
    apply fold_insert_is_Some. right.
    rewrite Forall_forall in Hrows.
    destruct (Hrows row Hin) as (d' & p' & t' & tag & Hd' & _ & _ & Ht' & Hg).
    assert (lookup_entry self row
            = Some ((port, _normalize_protocol self token), tag)) as He.
    { unfold lookup_entry. rewrite Hd. simpl. rewrite Hi. simpl.
      rewrite Ht. simpl. by rewrite Hg. }
    apply mapM_Some in Hm. apply list_elem_of_lookup in Hin as [i Hi'].
    destruct (Forall2_lookup_l _ _ _ _ _ Hm Hi') as (e & Hei & Hrow).
    rewrite He in Hrow. injection Hrow as <-.
    apply list_elem_of_fmap. exists ((port, _normalize_protocol self token), tag).
    split; [done|]. by apply list_elem_of_lookup_2 in Hei.
  - intros key Hkey.
    assert (key ∉ entries.*1) as Hfresh.
    { intros ([key' tag'] & -> & Hin)%list_elem_of_fmap. simpl in *.
      destruct (entry_has_row _ _ _ _ _ Hm Hin) as (row & Hrow & He).
      by apply (Hkey row tag'). }
    destruct (tag_mappings self !! key) as [tag|] eqn:Hold.
    + clear Hm Hkey. revert Hold. generalize (tag_mappings self).
      induction entries as [|[k v] entries IH]; intros m Hold; simpl; [done|].
      rewrite fmap_cons in Hfresh. apply not_elem_of_cons in Hfresh as [Hne Hfresh].
      apply IH; [done|]. by rewrite lookup_insert_ne.
    + by apply fold_insert_None.
Qed.

Lemma lookup_file_loads_witness :
  Forall (λ row : gmap string string, ∃ dstport port token tag,
            row !! "dstport" = Some dstport
            ∧ Py.int dstport = Some port ∧ int_within_limit dstport
            ∧ row !! "protocol" = Some token
            ∧ row !! "tag" = Some tag)
    [lookup_row_of "443" "TCP" "sv_P2"; lookup_row_of " 23 " "6" "sv_P1"]
  ∧ ∃ self',
      _load_lookup_file builtin_analyzer
        (Table [lookup_row_of "443" "TCP" "sv_P2"; lookup_row_of " 23 " "6" "sv_P1"])
      = Ok self'
      ∧ is_Some (tag_mappings self' !! (443, "tcp"))
      ∧ is_Some (tag_mappings self' !! (23, "tcp"))
      ∧ tag_mappings self' !! (23, "udp") = None.
Proof.
  assert (Forall (λ row : gmap string string, ∃ dstport port token tag,
            row !! "dstport" = Some dstport
            ∧ Py.int dstport = Some port ∧ int_within_limit dstport
            ∧ row !! "protocol" = Some token
            ∧ row !! "tag" = Some tag)
    [lookup_row_of "443" "TCP" "sv_P2"; lookup_row_of " 23 " "6" "sv_P1"]) as H.
  { repeat constructor.
    - exists "443", 443, "TCP", "sv_P2". repeat split. unfold int_within_limit. simpl. lia.
    - exists " 23 ", 23, "6", "sv_P1". repeat split. unfold int_within_limit. simpl. lia. }
  split; [exact H|].
  destruct (lookup_file_loads builtin_analyzer _ H) as (self' & Hload & _ & Hin & Hout).
  exists self'. split; [exact Hload|]. split; [|split].
  - apply (Hin (lookup_row_of "443" "TCP" "sv_P2") "443" 443 "TCP");
      [apply list_elem_of_here|reflexivity..].
  - apply (Hin (lookup_row_of " 23 " "6" "sv_P1") " 23 " 23 "6");
      [apply list_elem_of_further, list_elem_of_here|reflexivity..].
  - rewrite (Hout (23, "udp")); [reflexivity|].
    intros row tag Hrow.
    apply elem_of_cons in Hrow as [->|Hrow]; [vm_compute; intros [=]|].
    apply list_elem_of_singleton in Hrow as ->. vm_compute. intros [=].
Defined.

(** X12. The lookup loader takes a port of any size: for an integer [p] of
    at most 4300 digits, a row whose port cell is [str(p)] loads, and
    enters the key [(p, protocol)] with its tag, whether or not [p] is a
    port number. When [p] lies outside [0, 65535] no line ever parses to
    such a key, so the entry classifies nothing. *)
Theorem lookup_port_unchecked (self : FlowLogAnalyzer) (p : Z) (token tag : string) :
  str_within_limit p →
  _load_lookup_file self (Table [lookup_row_of (Py.str p) token tag])
  = Ok {| tag_mappings := <[(p, _normalize_protocol self token) := tag]> (tag_mappings self);
          protocol_map := protocol_map self |}
  ∧ (¬ 0 ≤ p ≤ 65535 →
     ∀ self' line protocol, _parse_flow_log_line self' line ≠ Ok (p, protocol)).
Proof.
  intros _. split.
  - destruct (lookup_row_of_cells (Py.str p) token tag) as (Hd & Ht & Hg).
    unfold _load_lookup_file, lookup_rows, lookup_row, cell, int.
    rewrite Hd. simpl. rewrite int_str. simpl. rewrite Ht. simpl. by rewrite Hg.
  - intros Hout self' line protocol Hp.
    by apply parse_Ok_port_range in Hp.
Qed.

Lemma lookup_port_unchecked_witness :
  str_within_limit 70000
  ∧ _load_lookup_file builtin_analyzer (Table [lookup_row_of (Py.str 70000) "TCP" "high"])
    = Ok {| tag_mappings := <[(70000, "tcp") := "high"]> ∅;
            protocol_map := DEFAULT_PROTOCOL_MAP |}
  ∧ ¬ 0 ≤ 70000 ≤ 65535
  ∧ ∀ self' line protocol, _parse_flow_log_line self' line ≠ Ok (70000, protocol).
Proof.
  assert (str_within_limit 70000) as Hl by reflexivity.
  destruct (lookup_port_unchecked builtin_analyzer 70000 "TCP" "high" Hl) as [H1 H2].
  assert (¬ 0 ≤ 70000 ≤ 65535) as H by lia.
  split; [exact Hl|]. split; [exact H1|]. split; [exact H|]. exact (H2 H).
Defined.

(** ** [main] *)

Lemma complete_not_warned output_file (ms : list message) :
  AnalysisComplete output_file ∉ Warned <$> ms.
Proof. by intros (m & ? & _)%list_elem_of_fmap. Qed.

Lemma main_not_four fs argv :
  length argv ≠ 4%nat →
  main fs argv = {| exit_code := 1; run_stdout := [Usage]; run_stderr := [];
                    written := None |}.
Proof. by destruct argv as [|? [|? [|? [|? [|? ?]]]]]. Qed.

Lemma beginning_prefix (reached : nat) (text : string) :
  ∃ rest, text = beginning reached text +:+ rest.
Proof.
  unfold beginning. revert reached.
  induction text as [|c text IH]; intros [|reached]; simpl.
  - by exists "".
  - by exists "".
  - by exists (String c text).
  - destruct (IH reached) as [rest Hrest]. exists rest.
    by rewrite app_cons, <- Hrest.
Qed.

(** X13. A run exits with 0 or 1. Without exactly three arguments after the
    program name it prints the usage, exits with 1 and touches no file. It
    exits with 0 only when the lookup file has loaded, the flow log exists,
    has at most 10485760 bytes and was read to its end, and the report was
    written in full: then the output file holds [write_results] of what
    [analyze_logs] returned, the completion message is the last thing on
    the standard output, and the diagnostic stream holds the warnings of
    the skipped lines and nothing else. A run that exits with 1 never
    prints the completion message. The output file is written to only after
    the lookup file has loaded and the flow log has been read to its end,
    and what it then holds is a beginning of that report. *)
Theorem main_exit_code (fs : filesystem) (argv : list string) :
  (exit_code (main fs argv) = 0 ∨ exit_code (main fs argv) = 1)
  ∧ (length argv ≠ 4%nat →
       main fs argv = {| exit_code := 1; run_stdout := [Usage]; run_stderr := [];
                         written := None |})
  ∧ (exit_code (main fs argv) = 0 →
       ∃ program lookup_file flow_log_file output_file self stdout f tags combos warnings,
         argv = [program; lookup_file; flow_log_file; output_file]
         ∧ __init__ (csv_at fs "protocol_mappings.csv") (csv_at fs lookup_file)
           = (Ok self, stdout)
         ∧ text_at fs flow_log_file = Some f ∧ file_size f ≤ MiB10
         ∧ read_fails fs flow_log_file = false
         ∧ analyze_logs self (Some f) = Ok (tags, combos, warnings)
         ∧ write_at fs output_file = WriteSucceeds
         ∧ main fs argv
           = {| exit_code := 0;
                run_stdout := (Warned <$> stdout) ++ [AnalysisComplete output_file];
                run_stderr := Warned <$> warnings;
                written := Some (output_file, write_results tags combos) |})
  ∧ (exit_code (main fs argv) = 1 →
       ∀ output_file, AnalysisComplete output_file ∉ run_stdout (main fs argv))
  ∧ (∀ path text, written (main fs argv) = Some (path, text) →
       ∃ program lookup_file flow_log_file self stdout tags combos warnings rest,
         argv = [program; lookup_file; flow_log_file; path]
         ∧ __init__ (csv_at fs "protocol_mappings.csv") (csv_at fs lookup_file)
           = (Ok self, stdout)
         ∧ analyze_logs self (text_at fs flow_log_file) = Ok (tags, combos, warnings)
         ∧ read_fails fs flow_log_file = false
         ∧ write_results tags combos = text +:+ rest).
Proof.
  destruct (decide (length argv = 4%nat)) as [Hlen|Hlen].
  2:{ rewrite (main_not_four _ _ Hlen). simpl.
      split; [by right|]. split; [done|]. split; [done|]. split; [|done].
      intros _ o [= ?]%list_elem_of_singleton. }
  destruct argv as [|program [|lookup_file [|flow_log_file [|output_file [|? ?]]]]];
    try done.
  split; [|split; [done|]]; unfold main;
    destruct (__init__ (csv_at fs "protocol_mappings.csv") (csv_at fs lookup_file))
      as [[self|e] out] eqn:Hinit; simpl;
    try destruct (analyze_logs self (text_at fs flow_log_file))
      as [[[tags combos] warnings]|e] eqn:Ha; simpl;
    try destruct (read_fails fs flow_log_file) eqn:Hr; simpl;
    try destruct (write_at fs output_file) as [|reached|] eqn:Hw; simpl;
    try (by left); try (by right).
  all: split; [try done|split; [try done|try done]].
  all: try (intros _ o Hin; by apply complete_not_warned in Hin).
  - intros path text [= <- <-].
    destruct (beginning_prefix reached (write_results tags combos)) as [rest Hrest].
    by eauto 15.
  - intros _. destruct (text_at fs flow_log_file) as [f|] eqn:Hf; [|done].
    assert (file_size f ≤ MiB10) as Hsize.
    { destruct (Z.le_gt_cases (file_size f) MiB10) as [?|Hgt]; [done|].
      exfalso. revert Ha. unfold analyze_logs. change MAX_FILE_SIZE with MiB10.
      by rewrite (proj2 (Z.gtb_lt _ _)) by lia. }
    by eauto 20.
  - intros path text [= <- <-]. exists program, lookup_file, flow_log_file, self, out,
      tags, combos, warnings, "". by rewrite app_nil_r_str.
Qed.

Lemma main_exit_code_witness :
  exit_code (main test_fs ["flow_log_parser.py"; "lookup.csv"; "flow.log"; "out.csv"]) = 0
  ∧ ∃ tags combos,
      written (main test_fs ["flow_log_parser.py"; "lookup.csv"; "flow.log"; "out.csv"])
      = Some ("out.csv", write_results tags combos).
Proof.
  assert (exit_code (main test_fs
            ["flow_log_parser.py"; "lookup.csv"; "flow.log"; "out.csv"]) = 0) as H
    by reflexivity.
  split; [exact H|].
  destruct (proj1 (proj2 (proj2 (main_exit_code test_fs
              ["flow_log_parser.py"; "lookup.csv"; "flow.log"; "out.csv"]))) H)
    as (program & lookup_file & flow_log_file & output_file & self & stdout & f
        & tags & combos & warnings & Hargv & _ & _ & _ & _ & _ & _ & Hmain).
  injection Hargv as _ _ _ <-.
  exists tags, combos. by rewrite Hmain.
Defined.

Example main_on_test_fs :
  main test_fs ["flow_log_parser.py"; "lookup.csv"; "flow.log"; "out.csv"]
  = {| exit_code := 0;
       run_stdout := [AnalysisComplete "out.csv"];
       run_stderr :=
         [Warned (SkippingInvalidLine OnlyVersion2);
          Warned (SkippingInvalidLine (InvalidFieldValue (InvalidPort 70000)));
          Warned (SkippingInvalidLine (InsufficientFields 0 14))];
       written := Some ("out.csv", "Tag Counts:
Tag,Count
Untagged,1
sv_P2,1

Port/Protocol Combination Counts:
Port,Protocol,Count
25,udp,1
443,tcp,1
") |}.
Proof. vm_compute. reflexivity. Qed.

(** A write that fails after the two header lines leaves them in the
    output file, and the run exits with 1. *)
Example main_on_full_disk :
  main full_disk_fs ["flow_log_parser.py"; "lookup.csv"; "flow.log"; "out.csv"]
  = {| exit_code := 1;
       run_stdout := [];
       run_stderr :=
         [Warned (SkippingInvalidLine OnlyVersion2);
          Warned (SkippingInvalidLine (InvalidFieldValue (InvalidPort 70000)));
          Warned (SkippingInvalidLine (InsufficientFields 0 14));
          ErrorWritingOutput];
       written := Some ("out.csv", "Tag Counts:
Tag,Count
") |}.
Proof. vm_compute. reflexivity. Qed.

(** ** The lines of the generator *)

Lemma no_space_app s1 s2 : no_space s1 → no_space s2 → no_space (s1 +:+ s2).
Proof. unfold no_space. intros H1 H2. by rewrite all_chars_app, H1, H2. Qed.

Lemma is_field_app s1 s2 : is_field s1 → no_space s2 → is_field (s1 +:+ s2).
Proof.
  intros [Hne H1] H2. split; [|by apply no_space_app]. by destruct s1.
Qed.

Lemma eni_alphabet_no_space cs :
  Forall (λ c, c ∈ Generator.eni_alphabet) cs →
  no_space (String.string_of_list_ascii cs).
Proof.
  assert (Forall (λ c, negb (Py.isspace_char c) = true) Generator.eni_alphabet)
    as Halpha by (vm_compute; repeat constructor).
  rewrite Forall_forall in Halpha.
  unfold no_space. induction 1 as [|c cs Hc _ IH]; simpl; [done|].
  by rewrite (Halpha _ Hc), IH.
Qed.

Lemma eni_is_field cs :
  Forall (λ c, c ∈ Generator.eni_alphabet) cs →
  is_field (Generator.generate_random_eni cs).
Proof.
  intros H. unfold Generator.generate_random_eni.
  apply is_field_app; [by split|]. by apply eni_alphabet_no_space.
Qed.

Lemma ip_is_field a b c d : is_field (Generator.generate_random_ip a b c d).
Proof.
  unfold Generator.generate_random_ip.
  repeat (apply is_field_app; [apply str_is_field|]; apply no_space_app; [done|]).
  apply str_is_field.
Qed.

Lemma generated_fields (r : Generator.draws) :
  Forall (λ c, c ∈ Generator.eni_alphabet) (Generator.eni_choices r) →
  is_field (Generator.protocol r) → is_field (Generator.action r) →
  fields_of (Generator.flow_log_entry r)
  = ["2"; "123456789012"; Generator.generate_random_eni (Generator.eni_choices r);
     Generator.ip_of (Generator.src_ip r); Generator.ip_of (Generator.dst_ip r);
     Py.str (Generator.src_port r); Py.str (Generator.dst_port r);
     Generator.protocol r; Py.str (Generator.packets r);
     Py.str (Generator.bytes_count r); Py.str (Generator.start_time r);
     Py.str (Generator.start_time r + Generator.duration r);
     Generator.action r; "OK"].
Proof.
  intros Heni Hproto Haction. rewrite fields_of_split. unfold Generator.flow_log_entry.
  change ("2 " +:+ ?x) with ("2" +:+ " " +:+ x).
  change (Generator.action r +:+ " OK
") with (Generator.action r +:+ " " +:+ "OK" +:+ "
").
  assert (∀ ip, is_field (Generator.ip_of ip)) as Hip
    by (intros [[[a b] c] d]; apply ip_is_field).
  rewrite (split_field_space "2") by done.
  rewrite (split_field_space "123456789012") by done.
  rewrite split_field_space by (by apply eni_is_field).
  rewrite !split_field_space by (apply Hip || apply str_is_field || done).
  rewrite (split_field_end "OK") by done. done.
Qed.

Lemma generated_line_accepted (self : FlowLogAnalyzer) (r : Generator.draws) :
  Generator.valid_draws r →
  _parse_flow_log_line self (Generator.flow_log_entry r)
  = Ok (Generator.dst_port r, _normalize_protocol self (Generator.protocol r)).
Proof.
  intros (_ & Heni & _ & _ & _ & Hport & Hproto & _ & _ & _ & Haction).
  assert (Generator.protocol r = "6" ∨ Generator.protocol r = "17"
          ∨ Generator.protocol r = "1") as Hp.
  { unfold Generator.protocols in Hproto.
    repeat (apply elem_of_cons in Hproto as [?|Hproto]; [by auto|]).
    by apply elem_of_nil in Hproto. }
  assert (Generator.action r = "ACCEPT" ∨ Generator.action r = "REJECT") as Ha.
  { repeat (apply elem_of_cons in Haction as [?|Haction]; [by auto|]).
    by apply elem_of_nil in Haction. }
  rewrite parse_outcome, generated_fields; [|done|..].
  - unfold outcome_of_fields. simpl. rewrite int_str.
    rewrite (proj2 (Z.ltb_ge _ _)) by lia. rewrite (proj2 (Z.ltb_ge _ _)) by lia.
    simpl. by destruct Hp as [-> | [-> | ->]].
  - by destruct Hp as [-> | [-> | ->]].
  - by destruct Ha as [-> | ->].
Qed.

(** X15. Every line [generate_flow_log] can write is accepted by the
    parser of the analyzer: the key is the destination port the generator
    drew and the normalized form of the protocol number it drew, which under
    the built-in map is "tcp", "udp" or "icmp". *)
Theorem generated_line_parses (self : FlowLogAnalyzer) (r : Generator.draws) :
  Generator.valid_draws r →
  _parse_flow_log_line self (Generator.flow_log_entry r)
  = Ok (Generator.dst_port r, _normalize_protocol self (Generator.protocol r))
  ∧ (protocol_map self = DEFAULT_PROTOCOL_MAP →
     _normalize_protocol self (Generator.protocol r) ∈ ["tcp"; "udp"; "icmp"]).
Proof.
  intros Hvalid. split; [by apply generated_line_accepted|].
  destruct Hvalid as (_ & _ & _ & _ & _ & _ & Hproto & _).
  intros Hm. unfold _normalize_protocol. rewrite Hm.
  unfold Generator.protocols in Hproto.
  repeat (apply elem_of_cons in Hproto as [->|Hproto];
          [simpl; repeat constructor|]).
  by apply elem_of_nil in Hproto.
Qed.

Lemma generated_line_parses_witness :
  Generator.valid_draws sample_draws
  ∧ _parse_flow_log_line builtin_analyzer (Generator.flow_log_entry sample_draws)
    = Ok (49153, "udp").
Proof.
  assert (Generator.valid_draws sample_draws) as H.
  { unfold Generator.valid_draws, sample_draws, Generator.valid_ip,
      Generator.in_all_ports. simpl.
    split; [done|]. split; [apply (bool_decide_unpack _); by vm_compute|].
    repeat split; try lia.
    - left. apply (bool_decide_unpack _). by vm_compute.
    - apply (bool_decide_unpack _). by vm_compute.
    - apply (bool_decide_unpack _). by vm_compute. }
  split; [exact H|].
  exact (proj1 (generated_line_parses builtin_analyzer sample_draws H)).
Defined.

Example generated_line :
  Generator.flow_log_entry sample_draws
  = "2 123456789012 eni-0a1b2c3d 10.0.1.201 198.51.100.2 443 49153 17 25 1500 1620140761 1620140821 ACCEPT OK
".
Proof. vm_compute. reflexivity. Qed.

(** ** Lookup rows and flow-log lines together *)

(** X16. Lookup rows and flow-log lines meet on the integer the port
    denotes and on the normalized protocol: a line is counted under the tag
    of the last row whose port literal denotes the line's port and whose
    protocol token normalizes as the line's does, however either is
    written. *)
Theorem line_tagged_by_matching_row (self self' : FlowLogAnalyzer)
    (pre post : list (gmap string string)) (row : gmap string string)
    (dstport token tag line field6 protocol : string) (p : Z) :
  _load_lookup_file self (Table (pre ++ row :: post)) = Ok self' →
  row !! "dstport" = Some dstport → row !! "protocol" = Some token →
  row !! "tag" = Some tag → Py.int dstport = Some p →
  (∀ r tag', r ∈ post →
     lookup_entry self r ≠ Some ((p, _normalize_protocol self token), tag')) →
  (14 ≤ length (fields_of line))%nat →
  fields_of line !! 0%nat = Some "2" →
  fields_of line !! 6%nat = Some field6 →
  Py.int field6 = Some p → 0 ≤ p ≤ 65535 →
  fields_of line !! 7%nat = Some protocol →
  Py.isdigit protocol = true →
  _normalize_protocol self protocol = _normalize_protocol self token →
  _parse_flow_log_line self' line = Ok (p, _normalize_protocol self token)
  ∧ tag_of_line self' line = Some tag
  ∧ ∀ st, ∃ st',
      analyze_line self' st line = Ok st'
      ∧ count_of (tag_counts st') tag = count_of (tag_counts st) tag + 1.
Proof.
  intros Hload Hd Ht Hg Hint Hpost Hlen E0 E6 Hint6 Hrange E7 Hdigit Hnorm.
  apply load_lookup_file_Ok_inv in Hload as (rows & entries & [= <-] & Hm & ->).
  assert (lookup_entry self row = Some ((p, _normalize_protocol self token), tag))
    as Hrow.
  { unfold lookup_entry. rewrite Hd. simpl. rewrite Hint. simpl.
    rewrite Ht. simpl. by rewrite Hg. }
  remember (p, _normalize_protocol self token) as key eqn:Hkey.
  pose proof Hm as HF. apply mapM_Some in HF.
  apply Forall2_app_inv_l in HF as (epre & erest & Hpre & Hrest & ->).
  apply Forall2_cons_inv_l in Hrest as (e & epost & He & Hepost & ->).
  rewrite Hrow in He. injection He as <-.
  assert (key ∉ epost.*1) as Hfresh.
  { clear -Hepost Hpost. induction Hepost as [|r e post epost Hr _ IH]; simpl.
    - apply not_elem_of_nil.
    - apply not_elem_of_cons. split.
      + intros ->. apply (Hpost r e.2); [left|]. by destruct e.
      + apply IH. intros r' tag' Hin. apply Hpost. by right. }
  pose proof (fold_insert_last (tag_mappings self) epre epost key tag Hfresh) as Hl.
  set (self' := {| tag_mappings := _; protocol_map := protocol_map self |}).
  assert (accepted self' line = Some key) as Hacc.
  { rewrite (accepted_fields self' _ _ _ _ Hlen E0 E6 Hint6 Hrange E7 Hdigit).
    rewrite Hkey. by rewrite (normalize_ext self self'), Hnorm. }
  assert (classify self' key = tag) as Hc
    by (unfold classify, self'; simpl; by rewrite Hl).
  split; [by apply parse_Some|]. split.
  - by rewrite tag_of_line_accepted, Hacc; simpl; rewrite Hc.
  - intros st. eexists. split; [apply analyze_line_spec|].
    rewrite Hacc. simpl. unfold count_of. rewrite Hc, get_incr.
    by rewrite decide_True.
Qed.

Lemma line_tagged_by_matching_row_witness :
  _load_lookup_file builtin_analyzer
    (Table ([lookup_row_of "443" "tcp" "old"]
            ++ lookup_row_of " +443" "TCP" "web" :: [lookup_row_of "443" "udp" "dns"]))
  = Ok {| tag_mappings :=
            <[(443, "udp") := "dns"]> (<[(443, "tcp") := "web"]>
              (<[(443, "tcp") := "old"]> ∅));
          protocol_map := DEFAULT_PROTOCOL_MAP |}
  ∧ tag_of_line
      {| tag_mappings :=
           <[(443, "udp") := "dns"]> (<[(443, "tcp") := "web"]>
             (<[(443, "tcp") := "old"]> ∅));
         protocol_map := DEFAULT_PROTOCOL_MAP |} bare_line
    = Some "web".
Proof.
  assert (_load_lookup_file builtin_analyzer
    (Table ([lookup_row_of "443" "tcp" "old"]
            ++ lookup_row_of " +443" "TCP" "web" :: [lookup_row_of "443" "udp" "dns"]))
  = Ok {| tag_mappings :=
            <[(443, "udp") := "dns"]> (<[(443, "tcp") := "web"]>
              (<[(443, "tcp") := "old"]> ∅));
          protocol_map := DEFAULT_PROTOCOL_MAP |}) as H by (vm_compute; reflexivity).
  split; [exact H|].
  refine (proj1 (proj2 (line_tagged_by_matching_row builtin_analyzer _ _ _ _
            " +443" "TCP" "web" bare_line "443" "6" 443 H _ _ _ _ _ _ _ _ _ _ _ _ _)));
    try (vm_compute; reflexivity); try (vm_compute; lia).
  - intros r tag' Hin%list_elem_of_singleton. subst r. vm_compute. intros [=].
  - split; lia.
Defined.

(** ** The loop of the generator *)

Lemma utf8_len_nonneg s : 0 ≤ Generator.utf8_len s.
Proof. induction s as [|c s IH]; simpl; [done|]. case_match; lia. Qed.

Lemma entry_len_pos r : 2 ≤ Generator.utf8_len (Generator.flow_log_entry r).
Proof.
  unfold Generator.flow_log_entry.
  change ("2 " +:+ ?x) with (String "2" (String " " x)).
  cbn [Generator.utf8_len].
  match goal with |- context [Generator.utf8_len ?x] =>
    pose proof (utf8_len_nonneg x) end.
  change (Py.ord "2" <? 128) with true. change (Py.ord " " <? 128) with true. lia.
Qed.

Lemma utf8_total_nonneg lines : 0 ≤ utf8_total lines.
Proof.
  unfold utf8_total. induction lines as [|l lines IH]; cbn [foldr]; [done|].
  pose proof (utf8_len_nonneg l). lia.
Qed.

Lemma write_entries_Some min b rs lines bytes :
  Generator.write_entries min b rs = Some (lines, bytes) →
  lines = Generator.flow_log_entry <$> take (length lines) rs
  ∧ bytes = b + utf8_total lines
  ∧ (min ≤ bytes ∨ (lines = [] ∧ min ≤ b))
  ∧ (lines = [] ↔ min ≤ b)
  ∧ ∀ line, last lines = Some line → bytes - Generator.utf8_len line < min.
Proof.
  revert b lines bytes. induction rs as [|r rs IH]; intros b lines bytes;
    cbn [Generator.write_entries].
  - destruct (Z.ltb_spec b min); [done|]. intros [= <- <-].
    unfold utf8_total. cbn [foldr length take fmap list_fmap].
    repeat split; try done; try lia; auto.
  - destruct (Z.ltb_spec b min) as [Hlt|Hge].
    + pose proof (entry_len_pos r) as Hlen. cbv zeta.
      set (line := Generator.flow_log_entry r) in *.
      destruct (Generator.write_entries min (b + Generator.utf8_len line) rs)
        as [[lines' bytes']|] eqn:E; [|done].
      intros [= <- <-]. destruct (IH _ _ _ E) as (Hl & Hb & Hm & Hnil & Hlast).
      split; [cbn [length take fmap list_fmap]; by f_equal|].
      unfold utf8_total in *. cbn [foldr]. split; [lia|].
      split. { destruct Hm as [?|[-> ?]]; [by left|]. left. cbn [foldr] in Hb. lia. }
      split; [split; [done|lia]|].
      intros line'. destruct lines' as [|l' lines''] eqn:El.
      * intros [= <-]. cbn [foldr] in Hb. lia.
      * intros Hlastl. apply Hlast. exact Hlastl.
    + intros [= <- <-]. unfold utf8_total. cbn [foldr length take fmap list_fmap].
      repeat split; try done; try lia; auto.
Qed.

Lemma write_entries_enough min b rs :
  min - b ≤ Z.of_nat (length rs) → is_Some (Generator.write_entries min b rs).
Proof.
  revert b. induction rs as [|r rs IH]; intros b Hlen;
    cbn [Generator.write_entries].
  - destruct (Z.ltb_spec b min); [cbn [length] in Hlen; lia|eauto].
  - destruct (Z.ltb_spec b min); [|eauto].
    pose proof (entry_len_pos r). cbv zeta.
    destruct (IH (b + Generator.utf8_len (Generator.flow_log_entry r))) as [[l t] ->].
    + cbn [length] in Hlen. lia.
    + eauto.
Qed.

(** X17. The loop of [generate_flow_log] ends, each round adding at least
    two bytes, so that as many rounds as the size asked for always suffice.
    What it has written then is one line per round, with [bytes_written]
    the bytes of those lines and no less than the size asked for; it stops
    with the first line that reaches the size; and every line it wrote is
    one the analyzer's parser accepts. *)
Theorem generated_flow_log (min_size_bytes : Z) (rs : list Generator.draws) :
  (min_size_bytes ≤ Z.of_nat (length rs) →
   is_Some (Generator.write_entries min_size_bytes 0 rs))
  ∧ ∀ lines bytes_written,
      Generator.write_entries min_size_bytes 0 rs = Some (lines, bytes_written) →
      lines = Generator.flow_log_entry <$> take (length lines) rs
      ∧ bytes_written = utf8_total lines
      ∧ min_size_bytes ≤ bytes_written
      ∧ (∀ line, last lines = Some line →
           bytes_written - Generator.utf8_len line < min_size_bytes)
      ∧ (Forall Generator.valid_draws rs →
         ∀ self, Forall (λ line, parses self line = true) lines).
Proof.
  split; [intros H; apply write_entries_enough; lia|].
  intros lines bytes Hw.
  destruct (write_entries_Some _ _ _ _ _ Hw) as (Hl & Hb & Hm & Hnil & Hlast).
  split; [done|]. split; [lia|].
  split. { pose proof (utf8_total_nonneg lines). destruct Hm as [?|[_ ?]]; lia. }
  split; [done|]. intros Hvalid self. rewrite Hl.
  apply Forall_fmap, Forall_forall. intros r Hr. simpl.
  assert (Generator.valid_draws r) as Hv.
  { rewrite Forall_forall in Hvalid. apply Hvalid.
    by eapply subseteq_take. }
  unfold parses. by rewrite (generated_line_accepted self r Hv).
Qed.

Lemma generated_flow_log_witness :
  250 ≤ Z.of_nat (length (replicate 250 sample_draws))
  ∧ is_Some (Generator.write_entries 250 0 (replicate 250 sample_draws))
  ∧ Generator.write_entries 250 0 (replicate 250 sample_draws)
    = Some (replicate 3 (Generator.flow_log_entry sample_draws), 315)
  ∧ 315 = utf8_total (replicate 3 (Generator.flow_log_entry sample_draws))
  ∧ 250 ≤ 315.
Proof.
  assert (250 ≤ Z.of_nat (length (replicate 250 sample_draws))) as H1
    by (rewrite length_replicate; lia).
  assert (Generator.write_entries 250 0 (replicate 250 sample_draws)
          = Some (replicate 3 (Generator.flow_log_entry sample_draws), 315)) as H2
    by (vm_compute; reflexivity).
  destruct (generated_flow_log 250 (replicate 250 sample_draws)) as [Hsome Hspec].
  destruct (Hspec _ _ H2) as (_ & Hb & Hm & _).
  split; [exact H1|]. split; [exact (Hsome H1)|]. split; [exact H2|].
  split; [exact Hb|exact Hm].
Defined.

(** X18. A flow log that [generate_flow_log] writes for a size of more
    than 10 MB is refused by [analyze_logs] for its size, whatever its lines:
    the generator's own [main] asks for 12. *)
Theorem generated_log_too_large (self : FlowLogAnalyzer) (min_size_mb : Z)
    (rs : list Generator.draws) (lines : list string) (bytes_written : Z)
    (f : text_file) :
  10 < min_size_mb →
  Generator.generate_flow_log min_size_mb rs = Some (lines, bytes_written) →
  file_lines f = lines → bytes_written ≤ file_size f →
  analyze_logs self (Some f) = Raise (Exception (FlowLogTooLarge (file_size f))).
Proof.
  intros Hmb Hgen _ Hsize. unfold Generator.generate_flow_log in Hgen.
  destruct (write_entries_Some _ _ _ _ _ Hgen) as (_ & Hb & Hm & _).
  pose proof (utf8_total_nonneg lines).
  assert (MAX_FILE_SIZE < file_size f) as Hbig.
  { unfold MAX_FILE_SIZE. destruct Hm as [?|[_ ?]]; lia. }
  unfold analyze_logs. by rewrite (proj2 (Z.gtb_lt _ _) Hbig).
Qed.

Lemma generated_log_too_large_witness :
  10 < 11
  ∧ ∃ lines bytes_written,
      Generator.generate_flow_log 11 (replicate (Z.to_nat 11534336) sample_draws)
      = Some (lines, bytes_written)
      ∧ analyze_logs builtin_analyzer
          (Some {| file_size := bytes_written; file_lines := lines |})
        = Raise (Exception (FlowLogTooLarge bytes_written)).
Proof.
  assert (10 < 11) as H1 by lia.
  split; [exact H1|].
  destruct (write_entries_enough (11 * 1024 * 1024) 0
              (replicate (Z.to_nat 11534336) sample_draws))
    as [[lines bytes_written] Hgen].
  { rewrite length_replicate, Z2Nat.id; lia. }
  exists lines, bytes_written. split; [exact Hgen|].
  apply (generated_log_too_large builtin_analyzer 11 _ lines bytes_written
           {| file_size := bytes_written; file_lines := lines |} H1 Hgen eq_refl).
  apply Z.le_refl.
Defined.
